(** * server/main.py: purchase ledger, Stripe webhook and full-report gate

    A shallow embedding of the payment-gated part of [server/main.py]:
    module initialisation (required environment variables), the SQLite
    purchase table with [record_purchase] and [has_recent_purchase], the
    [stripe_webhook] handler with its package matcher, and the
    [full_report] handler with its entitlement check and the two RentCast
    calls.

    Conventions.
    - Python [str] is [string]; [str.lower] is modelled on the ASCII
      letters, which is what the configured keywords are made of. Where
      a statement depends on how an e-mail is folded, the e-mail is
      assumed to be ASCII ([is_ascii]).
    - Python [int] is [Z] (unbounded); a Python [float] is an IEEE 754
      value, [spec_float]. SQLite binds an integer parameter as a 64-bit
      value; statements that range over the window or the clock assume
      the bound values are in that range ([int64]).
    - The purchase table is taken to be available: connecting, inserting
      and committing do not fail.
    - [None] is [option]'s [None]; Python truthiness of an optional string
      ([None] and the empty string are false) is [truthy].
    - An exception is a value of [exn]; code that may raise returns an
      [outcome]; handlers run in the monad [M] over the server state
      (the purchase table, the clock, and the GET calls given to the HTTP
      client).
    - Third-party routines (Stripe's signature check, JSON decoding and
      line-item listing, the gather of the two GETs) are Section
      variables: every theorem holds for all of them. *)

From Stdlib Require Import ZArith Lia Bool List String Ascii SpecFloat.
Import ListNotations.

#[local] Open Scope string_scope.
#[local] Open Scope Z_scope.

(* ================================================================== *)
(** ** Strings as Python uses them *)

Module PyStr.

(** [c.lower()] for one character: the 26 ASCII capitals move by 32. *)
Definition lower_ascii (c : ascii) : ascii :=
  let n := N_of_ascii c in
  if ((65 <=? n) && (n <=? 90))%N then ascii_of_N (n + 32) else c.

(** [s.lower()] *)
Fixpoint lower (s : string) : string :=
  match s with
  | EmptyString => EmptyString
  | String c t => String (lower_ascii c) (lower t)
  end.

(** [needle in hay] for strings: some suffix of [hay] starts with
    [needle]; the empty needle is in every string. *)
Fixpoint contains (needle hay : string) : bool :=
  String.prefix needle hay ||
  match hay with
  | EmptyString => false
  | String _ t => contains needle t
  end.

(** [sep.join(parts)] *)
Definition join (sep : string) (parts : list string) : string :=
  String.concat sep parts.

(** Truthiness of a string: non-empty. *)
Definition nonempty (s : string) : bool :=
  match s with EmptyString => false | String _ _ => true end.

(** Truthiness of an optional string: present and non-empty. *)
Definition truthy (o : option string) : bool :=
  match o with None => false | Some s => nonempty s end.

(** [a or b] where [a] is an optional string and [b] a string. *)
Definition or_else (o : option string) (d : string) : string :=
  match o with
  | Some s => if nonempty s then s else d
  | None => d
  end.

End PyStr.

(* ================================================================== *)
(** ** Module initialisation (lines 12-31) *)

Module Startup.

(** The process environment, as [os.getenv] reads it. *)
Definition environ := string -> option string.

(** The module-level names of lines 12-16 and 31. The four required
    values keep the type [os.getenv] gives them. *)
Record config := mkConfig {
  GOOGLE_MAPS_API_KEY : option string;
  RENTCAST_API_KEY : option string;
  STRIPE_SECRET_KEY : option string;
  STRIPE_WEBHOOK_SECRET : option string;
  ALLOWED_ORIGIN : string;
  DB_PATH : string
}.

(** [os.getenv(name, default)] *)
Definition getenv_default (env : environ) (name default : string) : string :=
  match env name with Some v => v | None => default end.

Definition missing_msg : string :=
  "Missing required env vars: GOOGLE_MAPS_API_KEY, RENTCAST_API_KEY, STRIPE_SECRET_KEY, STRIPE_WEBHOOK_SECRET".

(** Running the module body: either the configuration the application
    is built from, or the [RuntimeError] of line 19, after which no
    application object exists and nothing is served. *)
Definition module_init (env : environ) : config + string :=
  let g := env "GOOGLE_MAPS_API_KEY" in
  let r := env "RENTCAST_API_KEY" in
  let sk := env "STRIPE_SECRET_KEY" in
  let wh := env "STRIPE_WEBHOOK_SECRET" in
  let origin := getenv_default env "ALLOWED_ORIGIN" "https://superiorllc.org" in
  if negb (PyStr.truthy g && PyStr.truthy r && PyStr.truthy sk && PyStr.truthy wh)
  then inr missing_msg
  else inl (mkConfig g r sk wh origin
              (getenv_default env "PURCHASE_DB" "/tmp/purchases.db")).

(** The process serves traffic exactly when the import succeeded. *)
Definition serves (env : environ) : bool :=
  match module_init env with inl _ => true | inr _ => false end.

End Startup.

(* ================================================================== *)
(** ** Package matchers (lines 25-29) *)

Record matcher := mkMatcher {
  amount : Z;
  label_keywords : list string
}.

(** The dict literal, in insertion order (the order [.items()] yields). *)
Definition PACKAGE_MATCHERS : list (string * matcher) :=
  [ ("snapshot", mkMatcher 2900 ["Snapshot"]);
    ("investor", mkMatcher 7900 ["Investor"]);
    ("consult",  mkMatcher 19900 ["Consultation"; "Full"]) ].

(* ================================================================== *)
(** ** Exceptions, outcomes and the handler monad *)

Inductive exn :=
| HTTPException (status_code : Z) (detail : string)
| Exception (msg : string).

(** [str(e)] *)
Definition exn_str (e : exn) : string :=
  match e with
  | HTTPException _ detail => detail
  | Exception msg => msg
  end.

Inductive outcome (A : Type) :=
| Returned (a : A)
| Raised (e : exn).
Arguments Returned {A} a.
Arguments Raised {A} e.

(** JSON documents (request and response bodies). *)
#[warnings="-register-all"]
Inductive json :=
| JNull
| JBool (b : bool)
| JInt (n : Z)
| JStr (s : string)
| JArr (items : list json)
| JObj (fields : list (string * json)).

Module Ledger.

(** One row of table [purchases]; the autoincrement [id] is the
    position in the list. *)
Record purchase := mkPurchase {
  email : string;
  package : string;
  created_at : Z
}.

Definition t := list purchase.

End Ledger.

(** A Python [float]. *)
Definition float : Type := spec_float.

(** A query parameter of an outbound GET. *)
Inductive param :=
| PStr (s : string)
| PFloat (f : float)
| PInt (n : Z).

(** What [client.get(url, params=..., headers=..., timeout=...)] is
    called with. *)
Record get_call := mkGet {
  url : string;
  params : list (string * param);
  headers : list (string * option string);
  timeout : Z
}.

(** What a handler can see and change: the rows of the purchase table,
    the reading of [int(time.time())], and the GET calls handed to the
    HTTP client so far. *)
Record state := mkState {
  purchases : Ledger.t;
  clock : Z;
  client_gets : list get_call
}.

Definition M (A : Type) : Type := state -> outcome A * state.

Definition ret {A} (a : A) : M A := fun s => (Returned a, s).

Definition bind {A B} (m : M A) (k : A -> M B) : M B :=
  fun s =>
    match m s with
    | (Returned a, s') => k a s'
    | (Raised e, s') => (Raised e, s')
    end.

(** [raise e] *)
Definition raise {A} (e : exn) : M A := fun s => (Raised e, s).

(** A call into a library that returns or raises and touches nothing of
    the state. *)
Definition call {A} (o : outcome A) : M A := fun s => (o, s).

(** [try: m] / [except Exception as e: h e] *)
Definition try_except {A} (m : M A) (h : exn -> M A) : M A :=
  fun s =>
    match m s with
    | (Returned a, s') => (Returned a, s')
    | (Raised e, s') => h e s'
    end.

Declare Scope py_scope.
Delimit Scope py_scope with py.
Notation "x <- m ;; k" := (bind m (fun x => k))
  (at level 61, m at next level, right associativity) : py_scope.
Notation "m ;;; k" := (bind m (fun _ => k))
  (at level 61, right associativity) : py_scope.
#[local] Open Scope py_scope.

(* ================================================================== *)
(** ** The purchase table (lines 33-57) *)

(** [db()]: connect and [CREATE TABLE IF NOT EXISTS]; the rows are left
    as they are (a table that did not exist is the empty table). *)
Definition db : M Ledger.t := fun s => (Returned (purchases s), s).

(** [int(time.time())] *)
Definition time_time : M Z := fun s => (Returned (clock s), s).

(** [INSERT INTO purchases ... ; commit] *)
Definition insert_row (r : Ledger.purchase) : M unit :=
  fun s => (Returned tt, mkState (purchases s ++ [r])%list (clock s) (client_gets s)).

Definition record_purchase (email package : string) : M unit :=
  _ <- db ;;
  now <- time_time ;;
  insert_row (Ledger.mkPurchase (PyStr.lower email) package now).

(** The [WHERE] clause of line 53. *)
Definition row_matches (email package : string) (cutoff : Z)
           (r : Ledger.purchase) : bool :=
  String.eqb (Ledger.email r) email
  && String.eqb (Ledger.package r) package
  && (cutoff <=? Ledger.created_at r).

Definition has_recent_purchase (email package : string) (days : Z) : M bool :=
  now <- time_time ;;
  let cutoff := now - days * 86400 in
  rows <- db ;;
  let ok := existsb (row_matches (PyStr.lower email) package cutoff) rows in
  ret ok.

(* ================================================================== *)
(** ** Data the handlers exchange with FastAPI, Stripe and httpx *)

(** The inbound webhook request: the raw body and [request.headers.get]. *)
Module Request.
Record t := mk {
  body : string;
  headers : string -> option string
}.
End Request.

(** Stripe's checkout-session event, at the fields the handler reads. *)
Module Stripe.

Record CustomerDetails := mkCustomerDetails {
  email : option string
}.

Record Session := mkSession {
  id : string;
  customer_details : option CustomerDetails;
  amount_total : option Z
}.

(** [event["type"]] and [event["data"]["object"]] *)
Record Event := mkEvent {
  type : string;
  data_object : Session
}.

Record LineItem := mkLineItem {
  description : option string
}.

Record LineItems := mkLineItems {
  data : list LineItem
}.

End Stripe.

(** [FullReportReq] (lines 70-75). *)
Module FullReportReq.
Record t := mk {
  email : string;
  package : string;
  address : string;
  lat : float;
  lng : float
}.
End FullReportReq.

(** An httpx response: its status and what [.json()] gives. *)
Module Response.
Record t := mk {
  status_code : Z;
  json : outcome json
}.
End Response.

(* ================================================================== *)
(** ** The package matcher (lines 170, 179-185) *)

(** One turn of the [for code, cfg in PACKAGE_MATCHERS.items()] loop:
    the two [if]s of its body, applied to the current [package]. *)
Definition match_step (amount_total : option Z) (labels : string)
           (package : option string) (item : string * matcher) : option string :=
  let '(code, cfg) := item in
  let package :=
    match amount_total with
    | Some a => if a =? amount cfg then Some code else package
    | None => package
    end in
  if negb (PyStr.truthy package) && PyStr.nonempty labels then
    if existsb (fun kw => PyStr.contains (PyStr.lower kw) (PyStr.lower labels))
               (label_keywords cfg)
    then Some code
    else package
  else package.

(** The whole loop, started from [package = None]. *)
Definition match_package (matchers : list (string * matcher))
           (amount_total : option Z) (labels : string) : option string :=
  fold_left (match_step amount_total labels) matchers None.

(** [(session.get("customer_details") or {}).get("email")] *)
Definition session_email (session : Stripe.Session) : option string :=
  match Stripe.customer_details session with
  | Some details => Stripe.email details
  | None => None
  end.

(* ================================================================== *)
(** ** The handlers *)

Section Server.

(** The configuration the module was initialised with. *)
Variable cfg : Startup.config.

(** Stripe's library. [verify_header payload sig_header secret] is the
    signature check; [json_loads] decodes an accepted payload into an
    event; [list_line_items session_id limit] is the line-item lookup. *)
Variable verify_header : string -> option string -> option string -> outcome unit.
Variable json_loads : string -> outcome Stripe.Event.
Variable list_line_items : string -> Z -> outcome Stripe.LineItems.

(** The gather of line 208, kept as a parameter of the handler;
    [AsyncClient_gather], after this section, is the one httpx provides. *)
Variable gather : get_call -> get_call -> outcome (Response.t * Response.t).

(** [stripe.Webhook.construct_event]: the library checks the header
    first and decodes the payload only when the check passed. *)
Definition construct_event (payload : string) (sig_header secret : option string)
  : outcome Stripe.Event :=
  match verify_header payload sig_header secret with
  | Returned _ => json_loads payload
  | Raised e => Raised e
  end.

(** Lines 172-177: the labels of the session's line items, or the empty
    string when the lookup raises. *)
Definition line_item_labels (session : Stripe.Session) : string :=
  match list_line_items (Stripe.id session) 10 with
  | Returned line_items =>
      PyStr.join " "
        (map (fun li => PyStr.or_else (Stripe.description li) "")
             (Stripe.data line_items))
  | Raised _ => ""
  end.

Definition received : json := JObj [("received", JBool true)].

(** [stripe_webhook] (lines 156-190). *)
Definition stripe_webhook (request : Request.t) : M json :=
  let payload := Request.body request in
  let sig := Request.headers request "stripe-signature" in
  event <- try_except
             (call (construct_event payload sig (Startup.STRIPE_WEBHOOK_SECRET cfg)))
             (fun e => raise (HTTPException 400
                ("Webhook signature verification failed: " ++ exn_str e))) ;;
  (if String.eqb (Stripe.type event) "checkout.session.completed" then
     let session := Stripe.data_object event in
     let email := session_email session in
     let amount_total := Stripe.amount_total session in
     let labels := line_item_labels session in
     let package := match_package PACKAGE_MATCHERS amount_total labels in
     match email, package with
     | Some email, Some package =>
         if PyStr.nonempty email && PyStr.nonempty package
         then record_purchase email package
         else ret tt
     | _, _ => ret tt
     end
   else ret tt) ;;;
  ret received.

(** The package the loop selects for a session. *)
Definition session_package (session : Stripe.Session) : option string :=
  match_package PACKAGE_MATCHERS (Stripe.amount_total session)
                (line_item_labels session).

(** The four conditions under which the handler writes, for a request:
    the event is authentic, is a completed checkout, carries a non-empty
    buyer e-mail, and the matcher selects a package. *)
Definition qualifies (request : Request.t) (identity code : string) : Prop :=
  exists event,
    construct_event (Request.body request)
                    (Request.headers request "stripe-signature")
                    (Startup.STRIPE_WEBHOOK_SECRET cfg) = Returned event /\
    Stripe.type event = "checkout.session.completed" /\
    session_email (Stripe.data_object event) = Some identity /\
    identity <> "" /\
    session_package (Stripe.data_object event) = Some code.

(** [client.get(...)]: the call is handed to the client and noted. *)
Definition client_get (c : get_call) : M get_call :=
  fun s => (Returned c, mkState (purchases s) (clock s) (client_gets s ++ [c])%list).

Definition est_url : string := "https://api.rentcast.io/v1/rental-estimates".
Definition comps_url : string := "https://api.rentcast.io/v1/rental-comps".

(** The two GETs of lines 201-206. *)
Definition rentcast_headers : list (string * option string) :=
  [("X-Api-Key", Startup.RENTCAST_API_KEY cfg)].

Definition est_call (req : FullReportReq.t) : get_call :=
  mkGet est_url [("address", PStr (FullReportReq.address req))]
        rentcast_headers 20.

Definition comps_call (req : FullReportReq.t) : get_call :=
  mkGet comps_url
        [("latitude", PFloat (FullReportReq.lat req));
         ("longitude", PFloat (FullReportReq.lng req));
         ("radius", PInt 1); ("limit", PInt 6)]
        rentcast_headers 20.

(** The [async with] block of [full_report] (lines 199-216): the
    composite fetch. *)
Definition fetch (req : FullReportReq.t) : M json :=
  est_task <- client_get (est_call req) ;;
  comps_task <- client_get (comps_call req) ;;
  res <- call (gather est_task comps_task) ;;
  let '(est_res, comps_res) := res in
  if Response.status_code est_res >=? 400
  then raise (HTTPException 500 "RentCast estimate failed") else
  if Response.status_code comps_res >=? 400
  then raise (HTTPException 500 "RentCast comps failed") else
  estimate <- call (Response.json est_res) ;;
  comps <- call (Response.json comps_res) ;;
  ret (JObj [("estimate", estimate); ("comps", comps)]).

(** [full_report] (lines 193-216): the purchase check of lines 196-197,
    then the fetch. *)
Definition full_report (req : FullReportReq.t) : M json :=
  paid <- has_recent_purchase (FullReportReq.email req)
                              (FullReportReq.package req) 30 ;;
  if negb paid then raise (HTTPException 402 "Purchase not found yet")
  else fetch req.

End Server.

(** [httpx.AsyncClient.gather] as httpx has it: the class defines no
    attribute of that name, so evaluating the name on line 208 raises
    [AttributeError] before anything is awaited, whatever the two tasks
    are. *)
Definition attribute_error : exn :=
  Exception "AttributeError: type object 'AsyncClient' has no attribute 'gather'".

Definition AsyncClient_gather (est_task comps_task : get_call)
  : outcome (Response.t * Response.t) :=
  Raised attribute_error.

(* ================================================================== *)
(** ** Reading the matcher: what each turn of the loop can do *)

(** The first [if] of the loop body fires. *)
Definition amount_hit (amount_total : option Z) (item : string * matcher) : bool :=
  match amount_total with
  | Some a => a =? amount (snd item)
  | None => false
  end.

(** The test of the inner [if] of the loop body, together with the
    [labels] half of its guard. *)
Definition keyword_hit (labels : string) (item : string * matcher) : bool :=
  PyStr.nonempty labels
  && existsb (fun kw => PyStr.contains (PyStr.lower kw) (PyStr.lower labels))
             (label_keywords (snd item)).

(** The code of the last matcher whose amount is the event's total. *)
Fixpoint last_amount_match (matchers : list (string * matcher))
         (amount_total : option Z) : option string :=
  match matchers with
  | [] => None
  | item :: rest =>
      match last_amount_match rest amount_total with
      | Some c => Some c
      | None => if amount_hit amount_total item then Some (fst item) else None
      end
  end.

(** The code of the first matcher one of whose keywords is in the labels. *)
Fixpoint first_keyword_match (matchers : list (string * matcher))
         (labels : string) : option string :=
  match matchers with
  | [] => None
  | item :: rest =>
      if keyword_hit labels item then Some (fst item)
      else first_keyword_match rest labels
  end.

(** Every code of the configuration is a non-empty string, so a selected
    package is true for [not package]. *)
Definition codes_nonempty (matchers : list (string * matcher)) : Prop :=
  Forall (fun item => PyStr.nonempty (fst item) = true) matchers.

(** The property of the specification: once the scan of a prefix of the
    configuration has selected a package, the scan of the whole
    configuration ends with that package. *)
Definition first_selection_wins (matchers : list (string * matcher))
           (amount_total : option Z) (labels : string) : Prop :=
  forall pre post c,
    matchers = (pre ++ post)%list ->
    match_package pre amount_total labels = Some c ->
    PyStr.nonempty c = true ->
    match_package matchers amount_total labels = Some c.

(** Modelled after the specification's wording of the policy (section
    4.2), for comparison with [match_package]: the first definition
    whose amount or whose keywords match is selected and ends the
    search. *)
Fixpoint spec_first_match (matchers : list (string * matcher))
         (amount_total : option Z) (labels : string) : option string :=
  match matchers with
  | [] => None
  | item :: rest =>
      if amount_hit amount_total item || keyword_hit labels item
      then Some (fst item)
      else spec_first_match rest amount_total labels
  end.

(* ================================================================== *)
(** ** Reading the purchase table and the state *)

(** Every stored identity is in lower case: [record_purchase], the only
    writer, stores [email.lower()]. *)
Definition lowered (l : Ledger.t) : Prop :=
  Forall (fun r => Ledger.email r = PyStr.lower (Ledger.email r)) l.

(** No row is stamped later than the present reading of the clock. *)
Definition not_in_future (s : state) : Prop :=
  Forall (fun r => Ledger.created_at r <= clock s) (purchases s).

(** The clock moves to [t]; nothing else changes. *)
Definition advance_clock (t : Z) (s : state) : state :=
  mkState (purchases s) t (client_gets s).

(** Every character of the string is below 128. On such a string
    [PyStr.lower] is Python's [str.lower]. *)
Fixpoint is_ascii (s : string) : bool :=
  match s with
  | EmptyString => true
  | String c t => (N_of_ascii c <? 128)%N && is_ascii t
  end.

(** The range of a SQLite [INTEGER]: what [sqlite3] accepts as an integer
    parameter. *)
Definition int64 (z : Z) : Prop := - 2 ^ 63 <= z < 2 ^ 63.

(** [c] is an ASCII capital and [d] the small letter of it. *)
Definition letter_pair (c d : ascii) : Prop :=
  (65 <= N_of_ascii c <= 90)%N /\ N_of_ascii d = (N_of_ascii c + 32)%N.

Definition same_letter (c d : ascii) : Prop :=
  c = d \/ letter_pair c d \/ letter_pair d c.

(** Two strings that differ at most in the case of their letters. *)
Inductive same_ignoring_case : string -> string -> Prop :=
| same_empty : same_ignoring_case "" ""
| same_cons c d s t :
    same_letter c d -> same_ignoring_case s t ->
    same_ignoring_case (String c s) (String d t).

(** The table holds a purchase of [package_code] by [identity],
    whatever the case of its letters, made at or after [cutoff]. *)
Definition has_purchase_since (l : Ledger.t) (identity package_code : string)
           (cutoff : Z) : Prop :=
  exists r,
    In r l /\
    same_ignoring_case (Ledger.email r) identity /\
    Ledger.package r = package_code /\
    cutoff <= Ledger.created_at r.

Section Conditions.

Variable cfg : Startup.config.
Variable verify_header : string -> option string -> option string -> outcome unit.
Variable json_loads : string -> outcome Stripe.Event.
Variable list_line_items : string -> Z -> outcome Stripe.LineItems.

(** The event's line items were listed and [kw], in lower case, occurs
    in their descriptions joined by spaces, in lower case. *)
Definition keyword_in_line_items (session : Stripe.Session) (kw : string) : Prop :=
  exists line_items pre post,
    list_line_items (Stripe.id session) 10 = Returned line_items /\
    PyStr.lower
      (String.concat " "
         (map (fun li => match Stripe.description li with
                         | Some d => d
                         | None => ""
                         end)
              (Stripe.data line_items)))
    = pre ++ PyStr.lower kw ++ post.

(** The conditions of the ledger invariant, spelled out on the request:
    the signature check passes and the body decodes to an event of type
    [checkout.session.completed] whose customer details carry the
    non-empty e-mail [identity], and [item] is a configured package
    whose amount is the event's total or one of whose keywords occurs in
    the line items. *)
Definition purchase_conditions (request : Request.t) (identity : string)
           (item : string * matcher) : Prop :=
  exists u event details,
    verify_header (Request.body request)
                  (Request.headers request "stripe-signature")
                  (Startup.STRIPE_WEBHOOK_SECRET cfg) = Returned u /\
    json_loads (Request.body request) = Returned event /\
    Stripe.type event = "checkout.session.completed" /\
    Stripe.customer_details (Stripe.data_object event) = Some details /\
    Stripe.email details = Some identity /\
    identity <> "" /\
    In item PACKAGE_MATCHERS /\
    (Stripe.amount_total (Stripe.data_object event) = Some (amount (snd item))
     \/ exists kw, In kw (label_keywords (snd item)) /\
                   keyword_in_line_items (Stripe.data_object event) kw).

End Conditions.

(** The state after one more row. *)
Definition with_row (s : state) (r : Ledger.purchase) : state :=
  mkState (purchases s ++ [r])%list (clock s) (client_gets s).

(** The state after the two GETs were handed to the client. *)
Definition with_gets (s : state) (calls : list get_call) : state :=
  mkState (purchases s) (clock s) (client_gets s ++ calls)%list.

(** An environment that lacks the webhook signing secret only. *)
Definition env_without_webhook_secret : Startup.environ :=
  fun name =>
    if String.eqb name "STRIPE_WEBHOOK_SECRET" then None else Some "k".

(** A table with one row, read one day after the row was written. *)
Definition one_row_state : state :=
  mkState [Ledger.mkPurchase "user@example.com" "snapshot" 1000] 87400 [].

(* ================================================================== *)
(** ** A concrete deployment, for running the handlers *)

Module Demo.

Definition cfg : Startup.config :=
  Startup.mkConfig (Some "maps-key") (Some "rentcast-key") (Some "sk_test")
                   (Some "whsec_test") "https://superiorllc.org"
                   "/tmp/purchases.db".

(** A signature check that accepts one header value. *)
Definition verify_header (payload : string) (sig_header secret : option string)
  : outcome unit :=
  match sig_header with
  | Some v =>
      if String.eqb v "t=1,v1=good"
      then Returned tt
      else Raised (Exception "No signatures found matching the expected signature for payload")
  | None => Raised (Exception "Unable to extract timestamp and signatures from header")
  end.

Definition buyer (address : string) : option Stripe.CustomerDetails :=
  Some (Stripe.mkCustomerDetails (Some address)).

(** A decoder for five bodies. *)
Definition json_loads (payload : string) : outcome Stripe.Event :=
  if String.eqb payload "snapshot-paid" then
    Returned (Stripe.mkEvent "checkout.session.completed"
                (Stripe.mkSession "cs_1" (buyer "user@example.com") (Some 2900)))
  else if String.eqb payload "investor-by-label" then
    Returned (Stripe.mkEvent "checkout.session.completed"
                (Stripe.mkSession "cs_2" (buyer "User@Example.com") (Some 0)))
  else if String.eqb payload "investor-no-items" then
    Returned (Stripe.mkEvent "checkout.session.completed"
                (Stripe.mkSession "cs_3" (buyer "Buyer@Example.com") (Some 7900)))
  else if String.eqb payload "empty-email" then
    Returned (Stripe.mkEvent "checkout.session.completed"
                (Stripe.mkSession "cs_1" (buyer "") (Some 2900)))
  else if String.eqb payload "refund" then
    Returned (Stripe.mkEvent "charge.refunded"
                (Stripe.mkSession "ch_1" (buyer "user@example.com") (Some 2900)))
  else Raised (Exception "Expecting value: line 1 column 1 (char 0)").

(** Line items for two sessions; the lookup raises for every other. *)
Definition list_line_items (session_id : string) (limit : Z)
  : outcome Stripe.LineItems :=
  if String.eqb session_id "cs_1" then
    Returned (Stripe.mkLineItems [Stripe.mkLineItem (Some "Snapshot Report")])
  else if String.eqb session_id "cs_2" then
    Returned (Stripe.mkLineItems
                [Stripe.mkLineItem None; Stripe.mkLineItem (Some "Investor Package")])
  else Raised (Exception "No such checkout session").

Definition signed (payload : string) : Request.t :=
  Request.mk payload
    (fun name => if String.eqb name "stripe-signature"
                 then Some "t=1,v1=good" else None).

Definition unsigned (payload : string) : Request.t :=
  Request.mk payload (fun _ => None).

Definition forged (payload : string) : Request.t :=
  Request.mk payload
    (fun name => if String.eqb name "stripe-signature"
                 then Some "t=1,v1=bad" else None).

(** An empty table at Unix time 1700000000. *)
Definition s0 : state := mkState [] 1700000000 [].

(** A snapshot purchase made ten days before. *)
Definition s_paid : state :=
  mkState [Ledger.mkPurchase "user@example.com" "snapshot" (1700000000 - 10 * 86400)]
          1700000000 [].

Definition webhook : Request.t -> M json :=
  stripe_webhook cfg verify_header json_loads list_line_items.

Definition req : FullReportReq.t :=
  FullReportReq.mk "User@Example.com" "snapshot" "1 Main St, Richmond, VA"
                   (S754_finite false 75 (-1)) (S754_finite true 155 (-1)).

End Demo.

(* ================================================================== *)
(** ** The geocoding endpoint (lines 84-112) *)

(** Google's geocoding response, at the fields the handler reads. *)
Module Google.

Record AddressComponent := mkComponent {
  long_name : string;
  short_name : string;
  types : list string
}.

Record Location := mkLocation {
  lat : float;
  lng : float
}.

(** One result; [location] is [res["geometry"]["location"]]. *)
Record Result := mkResult {
  address_components : list AddressComponent;
  formatted_address : string;
  location : Location
}.

(** [data.get("status")] and [data.get("results")] *)
Record Geocoding := mkGeocoding {
  status : option string;
  results : option (list Result)
}.

(** The httpx response, by what its two methods give. *)
Record Response := mkResponse {
  raise_for_status : outcome unit;
  json : outcome Geocoding
}.

End Google.

(** The dict [geocode] returns. *)
Module Geocoded.
Record t := mk {
  formatted_address : string;
  lat : float;
  lng : float;
  city : option string;
  county : option string;
  state : string
}.
End Geocoded.

(** [comp(kind)] (lines 96-100): the first component that lists [kind]
    among its types. *)
Definition comp (comps : list Google.AddressComponent) (kind : string)
  : option Google.AddressComponent :=
  find (fun c => existsb (String.eqb kind) (Google.types c)) comps.

(** [a or b] for two optional components (a component is a non-empty
    dict, hence true). *)
Definition or_comp (a b : option Google.AddressComponent)
  : option Google.AddressComponent :=
  match a with Some _ => a | None => b end.

(** [GOOGLE_MAPS_API_KEY] as the [str] the module body has checked it to
    be. *)
Definition maps_key (cfg : Startup.config) : string :=
  PyStr.or_else (Startup.GOOGLE_MAPS_API_KEY cfg) "".

Definition geocode_url : string :=
  "https://maps.googleapis.com/maps/api/geocode/json".

Definition geocode_call (cfg : Startup.config) (address : string) : get_call :=
  mkGet geocode_url [("address", PStr address); ("key", PStr (maps_key cfg))] [] 20.

(** Truthiness of [data.get("results")]: present and not the empty
    list. *)
Definition has_results (results : option (list Google.Result)) : bool :=
  match results with
  | Some (_ :: _) => true
  | Some [] | None => false
  end.

(** Lines 92-112: from the decoded response to the answer. The last
    branch stands for the [IndexError] of [data["results"][0]], which
    the test of line 92 keeps from being reached. *)
Definition geocode_answer (data : Google.Geocoding) : outcome Geocoded.t :=
  let status_ok :=
    match Google.status data with
    | Some st => String.eqb st "OK"
    | None => false
    end in
  if negb status_ok || negb (has_results (Google.results data))
  then Raised (HTTPException 400 "No results") else
  match Google.results data with
  | Some (res :: _) =>
      let comps := Google.address_components res in
      let admin1 := comp comps "administrative_area_level_1" in
      let state :=
        match admin1 with
        | Some c => Google.short_name c
        | None => ""
        end in
      let city :=
        or_comp (comp comps "locality")
                (or_comp (comp comps "postal_town")
                         (comp comps "administrative_area_level_3")) in
      let county := comp comps "administrative_area_level_2" in
      let loc := Google.location res in
      Returned (Geocoded.mk
                  (Google.formatted_address res)
                  (Google.lat loc) (Google.lng loc)
                  (option_map Google.long_name city)
                  (option_map Google.long_name county)
                  (if PyStr.nonempty state then state else "VA"))
  | Some [] | None => Raised (Exception "IndexError: list index out of range")
  end.

Section Geocode.

Variable cfg : Startup.config.

(** The GET of line 89, awaited at once. *)
Variable maps_get : get_call -> outcome Google.Response.

(** [geocode] (lines 84-112). *)
Definition geocode (address : string) : M Geocoded.t :=
  task <- client_get (geocode_call cfg address) ;;
  r <- call (maps_get task) ;;
  _ <- call (Google.raise_for_status r) ;;
  data <- call (Google.json r) ;;
  call (geocode_answer data).

End Geocode.

(* ================================================================== *)
(** ** The server over a sequence of requests *)

(** What happens to the server, one thing at a time: a webhook delivery,
    a full-report request, or time passing. *)
Inductive action :=
| Webhook (request : Request.t)
| Report (req : FullReportReq.t)
| Tick (seconds : N).

Section Run.

Variable cfg : Startup.config.
Variable verify_header : string -> option string -> option string -> outcome unit.
Variable json_loads : string -> outcome Stripe.Event.
Variable list_line_items : string -> Z -> outcome Stripe.LineItems.
Variable gather : get_call -> get_call -> outcome (Response.t * Response.t).

(** The state after one action; what the handler answered is dropped. *)
Definition step (s : state) (a : action) : state :=
  match a with
  | Webhook request =>
      snd (stripe_webhook cfg verify_header json_loads list_line_items request s)
  | Report req => snd (full_report cfg gather req s)
  | Tick seconds => mkState (purchases s) (clock s + Z.of_N seconds) (client_gets s)
  end.

Definition run (actions : list action) (s : state) : state :=
  fold_left step actions s.

(** How many of the actions are webhook deliveries. *)
Definition deliveries (actions : list action) : nat :=
  List.length (filter (fun a => match a with Webhook _ => true | _ => false end)
                      actions).

End Run.

(** Concrete geocoding responses. *)
Module DemoMaps.

Definition richmond : Google.Result :=
  Google.mkResult
    [ Google.mkComponent "1" "1" ["street_number"];
      Google.mkComponent "Richmond" "Richmond" ["locality"; "political"];
      Google.mkComponent "Richmond City" "Richmond City"
                         ["administrative_area_level_2"; "political"];
      Google.mkComponent "Virginia" "" ["administrative_area_level_1"; "political"] ]
    "1 Main St, Richmond, VA 23219, USA"
    (Google.mkLocation (S754_finite false 75 (-1)) (S754_finite true 155 (-1))).

Definition london : Google.Result :=
  Google.mkResult
    [ Google.mkComponent "London" "London" ["postal_town"];
      Google.mkComponent "Greater London" "Greater London"
                         ["administrative_area_level_2"; "political"];
      Google.mkComponent "England" "England"
                         ["administrative_area_level_1"; "political"] ]
    "10 Downing St, London SW1A 2AA, UK"
    (Google.mkLocation (S754_finite false 103 (-1)) (S754_zero true)).

Definition maps_get (c : get_call) : outcome Google.Response :=
  Returned (Google.mkResponse (Returned tt)
              (Returned (Google.mkGeocoding (Some "OK") (Some [richmond; london])))).

Definition maps_get_denied (c : get_call) : outcome Google.Response :=
  Returned (Google.mkResponse (Raised (Exception "403 Forbidden"))
              (Returned (Google.mkGeocoding (Some "REQUEST_DENIED") (Some [])))).

End DemoMaps.

(** No component of the list is typed [kind]. *)
Definition no_component (comps : list Google.AddressComponent) (kind : string) : Prop :=
  forall c, In c comps -> ~ In kind (Google.types c).

(** A row as the webhook writes it at clock reading [now]. *)
Definition webhook_row (now : Z) (r : Ledger.purchase) : Prop :=
  Ledger.created_at r = now /\
  Ledger.email r = PyStr.lower (Ledger.email r) /\
  Ledger.email r <> "" /\
  exists item, In item PACKAGE_MATCHERS /\ fst item = Ledger.package r.

(** Upstreams that fail before any response is there. *)
Module DemoUpstream.

Definition gather_timeout (est_task comps_task : get_call)
  : outcome (Response.t * Response.t) :=
  Raised (Exception "ReadTimeout").

Definition maps_get_timeout (c : get_call) : outcome Google.Response :=
  Raised (Exception "ConnectTimeout").

(** One day of server life: a paid checkout, a day passing, a report
    request, a forged delivery. *)
Definition one_day : list action :=
  [ Webhook (Demo.signed "snapshot-paid");
    Tick 86400;
    Report Demo.req;
    Webhook (Demo.forged "investor-no-items") ].

End DemoUpstream.

(* ================================================================== *)
(** ** Lemmas on strings *)

Lemma lower_ascii_idem (c : ascii) :
  PyStr.lower_ascii (PyStr.lower_ascii c) = PyStr.lower_ascii c.
Proof.
  destruct c as [[] [] [] [] [] [] [] []]; reflexivity.
Qed.

Lemma lower_idem (s : string) : PyStr.lower (PyStr.lower s) = PyStr.lower s.
Proof.
  induction s as [|c t IH]; simpl.
  - reflexivity.
  - now rewrite lower_ascii_idem, IH.
Qed.

Lemma truthy_Some (s : string) : PyStr.truthy (Some s) = PyStr.nonempty s.
Proof. reflexivity. Qed.

Lemma nonempty_true_iff (s : string) : PyStr.nonempty s = true <-> s <> "".
Proof.
  destruct s as [|c t]; simpl; split; intro H.
  - discriminate.
  - now elim H.
  - discriminate.
  - reflexivity.
Qed.

(* ================================================================== *)
(** ** Lemmas on the matcher *)

Lemma match_step_unfold amount_total labels package item :
  match_step amount_total labels package item =
  let package' := if amount_hit amount_total item then Some (fst item) else package in
  if negb (PyStr.truthy package') && keyword_hit labels item
  then Some (fst item) else package'.
Proof.
  destruct item as [code cfg]. unfold match_step, amount_hit, keyword_hit. simpl.
  destruct amount_total as [a|]; [destruct (a =? amount cfg)|];
    cbv zeta;
    match goal with |- context [negb (PyStr.truthy ?p)] =>
      destruct (negb (PyStr.truthy p)) end; simpl;
    destruct (PyStr.nonempty labels); simpl; reflexivity.
Qed.

Lemma match_package_app pre post amount_total labels :
  match_package (pre ++ post) amount_total labels =
  fold_left (match_step amount_total labels) post
            (match_package pre amount_total labels).
Proof. unfold match_package. apply fold_left_app. Qed.

(** From a selected package on, only an amount match changes the
    selection. *)
Lemma fold_match_step_selected amount_total labels post :
  codes_nonempty post ->
  forall acc,
    PyStr.truthy acc = true ->
    fold_left (match_step amount_total labels) post acc =
    match last_amount_match post amount_total with
    | Some c' => Some c'
    | None => acc
    end.
Proof.
  induction 1 as [|item rest Hcode _ IH]; intros acc Hacc; simpl.
  - reflexivity.
  - rewrite match_step_unfold. cbv zeta.
    destruct (amount_hit amount_total item) eqn:Hhit.
    + rewrite truthy_Some, Hcode. simpl.
      rewrite IH by (now rewrite truthy_Some).
      now destruct (last_amount_match rest amount_total).
    + rewrite Hacc. simpl. rewrite IH by assumption.
      now destruct (last_amount_match rest amount_total).
Qed.

(** With nothing selected, the scan of [matchers] ends with the last
    amount match, or else with the first keyword match. *)
Lemma match_package_char matchers amount_total labels :
  codes_nonempty matchers ->
  match_package matchers amount_total labels =
  match last_amount_match matchers amount_total with
  | Some c => Some c
  | None => first_keyword_match matchers labels
  end.
Proof.
  unfold match_package.
  induction 1 as [|item rest Hcode Hrest IH]; simpl.
  - reflexivity.
  - rewrite match_step_unfold. cbv zeta.
    destruct (amount_hit amount_total item) eqn:Hhit.
    + rewrite truthy_Some, Hcode. simpl.
      rewrite fold_match_step_selected by (trivial; now rewrite truthy_Some).
      now destruct (last_amount_match rest amount_total).
    + simpl. destruct (keyword_hit labels item) eqn:Hkw.
      * rewrite fold_match_step_selected by (trivial; now rewrite truthy_Some).
        now destruct (last_amount_match rest amount_total).
      * rewrite IH. now destruct (last_amount_match rest amount_total).
Qed.

(** Without labels the scan is the amount match alone; this needs no
    assumption on the codes. *)
Lemma match_package_no_labels matchers amount_total :
  match_package matchers amount_total "" = last_amount_match matchers amount_total.
Proof.
  unfold match_package.
  assert (G : forall acc,
             fold_left (match_step amount_total "") matchers acc =
             match last_amount_match matchers amount_total with
             | Some c => Some c
             | None => acc
             end).
  { induction matchers as [|item rest IH]; intro acc; simpl.
    - reflexivity.
    - rewrite match_step_unfold. cbv zeta.
      unfold keyword_hit. simpl. rewrite andb_false_r.
      rewrite IH.
      destruct (last_amount_match rest amount_total); [reflexivity|].
      now destruct (amount_hit amount_total item). }
  rewrite G. now destruct (last_amount_match matchers amount_total).
Qed.

Lemma PACKAGE_MATCHERS_codes_nonempty : codes_nonempty PACKAGE_MATCHERS.
Proof. repeat constructor. Qed.

Lemma last_amount_match_In matchers amount_total c :
  last_amount_match matchers amount_total = Some c ->
  exists item, In item matchers /\ fst item = c /\ amount_hit amount_total item = true.
Proof.
  induction matchers as [|item rest IH]; simpl; [discriminate|].
  destruct (last_amount_match rest amount_total) as [c'|].
  - intro H. destruct (IH H) as (it & Hin & Hc & Hh). exists it. auto.
  - destruct (amount_hit amount_total item) eqn:Hh; [|discriminate].
    intro H. injection H as <-. exists item. auto.
Qed.

Lemma first_keyword_match_In matchers labels c :
  first_keyword_match matchers labels = Some c ->
  exists item, In item matchers /\ fst item = c /\ keyword_hit labels item = true.
Proof.
  induction matchers as [|item rest IH]; simpl; [discriminate|].
  destruct (keyword_hit labels item) eqn:Hk.
  - intro H. injection H as <-. exists item. auto.
  - intro H. destruct (IH H) as (it & Hin & Hc & Hh). exists it. auto.
Qed.

Lemma prefix_iff (p s : string) :
  String.prefix p s = true <-> exists post, s = p ++ post.
Proof.
  revert s. induction p as [|a p IH]; intro s; simpl.
  - destruct s; split; eauto.
  - destruct s as [|b s]; simpl.
    + split; [discriminate|]. intros (post & H). discriminate H.
    + destruct (ascii_dec a b) as [->|Hab].
      * rewrite IH. split; intros (post & H); exists post.
        -- now rewrite H.
        -- now injection H.
      * split; [discriminate|]. intros (post & H). injection H as E _.
        now elim Hab.
Qed.

Lemma contains_nil (needle : string) :
  PyStr.contains needle "" = String.prefix needle "".
Proof. unfold PyStr.contains. apply orb_false_r. Qed.

Lemma contains_cons (needle : string) (c : ascii) (t : string) :
  PyStr.contains needle (String c t)
  = String.prefix needle (String c t) || PyStr.contains needle t.
Proof. reflexivity. Qed.

Lemma contains_iff (needle hay : string) :
  PyStr.contains needle hay = true <->
  exists pre post, hay = pre ++ needle ++ post.
Proof.
  induction hay as [|c t IH].
  - rewrite contains_nil, prefix_iff. split.
    + intros (post & H). exists "", post. exact H.
    + intros (pre & post & H). destruct pre; [|discriminate H]. eauto.
  - rewrite contains_cons, orb_true_iff, prefix_iff, IH. split.
    + intros [(post & H)|(pre & post & H)].
      * exists "", post. exact H.
      * exists (String c pre), post. simpl. now rewrite H.
    + intros (pre & post & H). destruct pre as [|c' pre]; simpl in H.
      * left. eauto.
      * right. injection H as _ H. eauto.
Qed.

Lemma nonempty_lower (s : string) :
  PyStr.nonempty (PyStr.lower s) = PyStr.nonempty s.
Proof. now destruct s. Qed.

Lemma match_step_Some amount_total labels acc item c :
  match_step amount_total labels acc item = Some c ->
  acc = Some c \/
  (fst item = c /\
   (amount_hit amount_total item = true \/ keyword_hit labels item = true)).
Proof.
  rewrite match_step_unfold. cbv zeta.
  destruct (amount_hit amount_total item).
  - destruct (negb (PyStr.truthy (Some (fst item))) && keyword_hit labels item);
      intro H; injection H as <-; auto.
  - destruct (keyword_hit labels item).
    + rewrite andb_true_r. destruct (negb (PyStr.truthy acc)); intro H; auto.
      injection H as <-. auto.
    + rewrite andb_false_r. auto.
Qed.

Lemma match_step_None amount_total labels acc item :
  match_step amount_total labels acc item = None <->
  acc = None /\ amount_hit amount_total item = false
  /\ keyword_hit labels item = false.
Proof.
  rewrite match_step_unfold. cbv zeta.
  destruct (amount_hit amount_total item).
  - destruct (negb (PyStr.truthy (Some (fst item))) && keyword_hit labels item);
      split; try discriminate; intros (_ & H & _); discriminate H.
  - destruct acc as [c|].
    + destruct (negb (PyStr.truthy (Some c)) && keyword_hit labels item);
        split; try discriminate; intros (H & _); discriminate H.
    + simpl. destruct (keyword_hit labels item); split;
        try discriminate; auto.
      intros (_ & _ & H). discriminate H.
Qed.

Lemma fold_match_step_Some amount_total labels matchers :
  forall acc c,
    fold_left (match_step amount_total labels) matchers acc = Some c ->
    acc = Some c \/
    exists item,
      In item matchers /\ fst item = c /\
      (amount_hit amount_total item = true \/ keyword_hit labels item = true).
Proof.
  induction matchers as [|item rest IH]; simpl; intros acc c H.
  - auto.
  - destruct (IH _ _ H) as [E|(it & Hin & Hc & Hh)].
    + destruct (match_step_Some _ _ _ _ _ E) as [->|(Hc & Hh)]; eauto 6.
    + right. eauto 6.
Qed.

Lemma fold_match_step_None amount_total labels matchers :
  forall acc,
    fold_left (match_step amount_total labels) matchers acc = None <->
    acc = None /\
    forall item, In item matchers ->
                 amount_hit amount_total item = false /\
                 keyword_hit labels item = false.
Proof.
  induction matchers as [|item rest IH]; simpl; intro acc.
  - split; [intro H; split; [exact H | intros ? []] | tauto].
  - rewrite IH, match_step_None. split.
    + intros ((Ha & Hm & Hk) & Hrest). split; [exact Ha|].
      intros it [<-|Hin]; auto.
    + intros (Ha & Hall). split.
      * destruct (Hall item (or_introl eq_refl)). auto.
      * intros it Hin. apply Hall. now right.
Qed.

Lemma amount_hit_iff amount_total item :
  amount_hit amount_total item = true <-> amount_total = Some (amount (snd item)).
Proof.
  unfold amount_hit. destruct amount_total as [a|].
  - rewrite Z.eqb_eq. split; [now intros -> | now intros [= ->]].
  - split; discriminate.
Qed.

Lemma or_else_empty (o : option string) :
  PyStr.or_else o "" = match o with Some d => d | None => "" end.
Proof. destruct o as [[|c d]|]; reflexivity. Qed.

Lemma configured_keyword_nonempty item kw :
  In item PACKAGE_MATCHERS -> In kw (label_keywords (snd item)) -> kw <> "".
Proof.
  simpl. intros [<-|[<-|[<-|[]]]]; simpl; intros H;
    repeat (destruct H as [<-|H]; [discriminate|]); destruct H.
Qed.

Lemma lower_nonempty (x : string) : x <> "" -> PyStr.lower x <> "".
Proof. destruct x; [congruence | discriminate]. Qed.

(* ================================================================== *)
(** ** The package-matching policy *)

(** C1, as the specification states it, fails on the code: with a total
    of 7900 and the label text "Snapshot", the first matcher selects
    "snapshot" by keyword, and the second matcher, whose amount is 7900,
    then replaces it by "investor". *)
Lemma first_selection_wins_fails :
  ~ first_selection_wins PACKAGE_MATCHERS (Some 7900) "Snapshot".
Proof.
  intro H.
  specialize (H [("snapshot", mkMatcher 2900 ["Snapshot"])]
                [("investor", mkMatcher 7900 ["Investor"]);
                 ("consult", mkMatcher 19900 ["Consultation"; "Full"])]
                "snapshot" eq_refl eq_refl eq_refl).
  vm_compute in H. discriminate H.
Qed.

(** On the same event the policy as the specification words it and the
    loop of the code select different packages. *)
Example spec_first_match_differs :
  spec_first_match PACKAGE_MATCHERS (Some 7900) "Snapshot" = Some "snapshot" /\
  match_package PACKAGE_MATCHERS (Some 7900) "Snapshot" = Some "investor".
Proof. split; reflexivity. Qed.

(** C1 (amended): the matchers are scanned in configuration order, the
    amount match first and the keyword match only while nothing is
    selected; the loop has no early exit, and once a package is selected
    a later matcher changes the selection exactly when its amount equals
    the event's total (the last such matcher wins), never by its
    keywords. *)
Theorem selection_changes_only_by_amount
        (pre post : list (string * matcher))
        (amount_total : option Z) (labels c : string) :
  codes_nonempty post ->
  match_package pre amount_total labels = Some c ->
  PyStr.nonempty c = true ->
  match_package (pre ++ post) amount_total labels =
  match last_amount_match post amount_total with
  | Some c' => Some c'
  | None => Some c
  end.
Proof.
  intros Hpost Hpre Hc.
  rewrite match_package_app, Hpre.
  now apply fold_match_step_selected.
Qed.

Lemma selection_changes_only_by_amount_witness :
  match_package
    ([("snapshot", mkMatcher 2900 ["Snapshot"])] ++
     [("investor", mkMatcher 7900 ["Investor"]);
      ("consult", mkMatcher 19900 ["Consultation"; "Full"])])
    (Some 0) "Investor snapshot" = Some "snapshot".
Proof.
  apply (selection_changes_only_by_amount
           [("snapshot", mkMatcher 2900 ["Snapshot"])]
           [("investor", mkMatcher 7900 ["Investor"]);
            ("consult", mkMatcher 19900 ["Consultation"; "Full"])]
           (Some 0) "Investor snapshot" "snapshot").
  - repeat constructor.
  - reflexivity.
  - reflexivity.
Defined.

(** The scenarios of the specification's section 8. *)
Example match_by_amount :
  match_package PACKAGE_MATCHERS (Some 2900) "" = Some "snapshot".
Proof. reflexivity. Qed.

Example match_by_keyword :
  match_package PACKAGE_MATCHERS (Some 0) "Investor Package" = Some "investor".
Proof. reflexivity. Qed.

(* ================================================================== *)
(** ** Module initialisation *)

Lemma module_init_ok_iff (env : Startup.environ) :
  Startup.serves env = true <->
  PyStr.truthy (env "GOOGLE_MAPS_API_KEY") = true /\
  PyStr.truthy (env "RENTCAST_API_KEY") = true /\
  PyStr.truthy (env "STRIPE_SECRET_KEY") = true /\
  PyStr.truthy (env "STRIPE_WEBHOOK_SECRET") = true.
Proof.
  unfold Startup.serves, Startup.module_init. cbv zeta.
  destruct (PyStr.truthy (env "GOOGLE_MAPS_API_KEY"));
    destruct (PyStr.truthy (env "RENTCAST_API_KEY"));
    destruct (PyStr.truthy (env "STRIPE_SECRET_KEY"));
    destruct (PyStr.truthy (env "STRIPE_WEBHOOK_SECRET")); simpl;
    intuition congruence.
Qed.

(** C9: when one of the four required variables is absent from the
    environment, the module body raises the [RuntimeError] of line 19:
    no configuration and no application come into being, and the
    process does not serve. *)
Theorem module_init_missing_credential (env : Startup.environ) :
  env "GOOGLE_MAPS_API_KEY" = None \/
  env "RENTCAST_API_KEY" = None \/
  env "STRIPE_SECRET_KEY" = None \/
  env "STRIPE_WEBHOOK_SECRET" = None ->
  Startup.module_init env = inr Startup.missing_msg /\
  Startup.serves env = false.
Proof.
  intro H.
  assert (E : Startup.module_init env = inr Startup.missing_msg).
  { unfold Startup.module_init. cbv zeta.
    destruct H as [H|[H|[H|H]]]; rewrite H; simpl;
      rewrite ?andb_false_r; reflexivity. }
  split; [exact E|]. unfold Startup.serves. now rewrite E.
Qed.

Lemma module_init_missing_credential_witness :
  Startup.module_init env_without_webhook_secret = inr Startup.missing_msg /\
  Startup.serves env_without_webhook_secret = false.
Proof.
  apply (module_init_missing_credential env_without_webhook_secret).
  right. right. right. reflexivity.
Defined.

(* ================================================================== *)
(** ** The purchase table *)

Lemma record_purchase_run email package s :
  record_purchase email package s =
  (Returned tt,
   mkState (purchases s ++ [Ledger.mkPurchase (PyStr.lower email) package (clock s)])%list
           (clock s) (client_gets s)).
Proof. reflexivity. Qed.

Lemma has_recent_purchase_run email package days s :
  has_recent_purchase email package days s =
  (Returned (existsb (row_matches (PyStr.lower email) package
                                  (clock s - days * 86400)) (purchases s)), s).
Proof. reflexivity. Qed.

Lemma row_matches_true email package cutoff r :
  row_matches email package cutoff r = true <->
  Ledger.email r = email /\ Ledger.package r = package /\ cutoff <= Ledger.created_at r.
Proof.
  unfold row_matches. rewrite !andb_true_iff, !String.eqb_eq, Z.leb_le. tauto.
Qed.

Lemma record_purchase_lowered email package s :
  lowered (purchases s) ->
  lowered (purchases (snd (record_purchase email package s))).
Proof.
  intro H. rewrite record_purchase_run. simpl.
  apply Forall_app. split; [exact H|].
  constructor; [|constructor]. simpl. now rewrite lower_idem.
Qed.

Lemma is_capital_iff (n : N) :
  ((65 <=? n) && (n <=? 90))%N = true <-> (65 <= n <= 90)%N.
Proof. now rewrite andb_true_iff, !N.leb_le. Qed.

Lemma is_capital_false (n : N) :
  ((65 <=? n) && (n <=? 90))%N = false -> ~ (65 <= n <= 90)%N.
Proof. intros H X. apply is_capital_iff in X. congruence. Qed.

Lemma lower_ascii_eq_iff (c d : ascii) :
  PyStr.lower_ascii c = PyStr.lower_ascii d <-> same_letter c d.
Proof.
  unfold PyStr.lower_ascii, same_letter, letter_pair. cbv zeta.
  pose proof (N_ascii_bounded c) as Bc. pose proof (N_ascii_bounded d) as Bd.
  destruct ((65 <=? N_of_ascii c) && (N_of_ascii c <=? 90))%N eqn:Cc;
    [apply is_capital_iff in Cc | apply is_capital_false in Cc];
    (destruct ((65 <=? N_of_ascii d) && (N_of_ascii d <=? 90))%N eqn:Cd;
     [apply is_capital_iff in Cd | apply is_capital_false in Cd]).
  - split.
    + intro E. apply (f_equal N_of_ascii) in E.
      rewrite !N_ascii_embedding in E by lia.
      left. rewrite <- (ascii_N_embedding c), <- (ascii_N_embedding d).
      f_equal. lia.
    + intros [->|[(_ & E)|(_ & E)]]; [reflexivity | lia | lia].
  - split.
    + intro E. apply (f_equal N_of_ascii) in E.
      rewrite N_ascii_embedding in E by lia.
      right. left. split; [lia|]. now symmetry.
    + intros [->|[(_ & E)|(H & E)]]; [now elim Cd | | now elim Cd].
      rewrite <- E. apply ascii_N_embedding.
  - split.
    + intro E. apply (f_equal N_of_ascii) in E.
      rewrite N_ascii_embedding in E by lia.
      right. right. split; [lia|]. exact E.
    + intros [->|[(H & E)|(_ & E)]]; [now elim Cc | now elim Cc | ].
      rewrite <- E. symmetry. apply ascii_N_embedding.
  - split.
    + intros ->. now left.
    + intros [->|[(H & _)|(H & _)]];
        [reflexivity | now elim Cc | now elim Cd].
Qed.

(** The two strings have the same lower-casing exactly when they differ
    at most in the case of their letters. *)
Lemma lower_eq_iff (a b : string) :
  PyStr.lower a = PyStr.lower b <-> same_ignoring_case a b.
Proof.
  split.
  - revert b. induction a as [|c a IH]; intros [|d b] E; simpl in E;
      try discriminate E.
    + constructor.
    + injection E as Ec Es. constructor.
      * now apply lower_ascii_eq_iff.
      * now apply IH.
  - induction 1 as [|c d a b Hl _ IH]; simpl.
    + reflexivity.
    + f_equal; [now apply lower_ascii_eq_iff | exact IH].
Qed.

Lemma existsb_purchase_iff identity package_code cutoff (l : Ledger.t) :
  lowered l ->
  existsb (row_matches (PyStr.lower identity) package_code cutoff) l = true <->
  has_purchase_since l identity package_code cutoff.
Proof.
  intro Hl. rewrite existsb_exists. unfold has_purchase_since.
  unfold lowered in Hl. rewrite Forall_forall in Hl.
  split; intros (r & Hin & Hr); exists r; split; trivial.
  - apply row_matches_true in Hr. destruct Hr as (He & Hp & Hc).
    repeat split; trivial. apply lower_eq_iff. now rewrite He, lower_idem.
  - apply row_matches_true. destruct Hr as (He & Hp & Hc).
    repeat split; trivial. rewrite (Hl r Hin). now apply lower_eq_iff.
Qed.

(** C5: on a table whose identities are stored in lower case and whose
    rows are not stamped after the clock, for an ASCII identity and
    integers that SQLite can bind, [has_recent_purchase] answers [True]
    exactly when some row has that identity, whatever the case of its
    letters, and the package, and is stamped no earlier than
    [now - days * 86400]; it leaves the state as it was. Right after
    [record_purchase] for the identity and package it answers [True],
    under any spelling of the identity that differs only in case; and it
    answers [False] once the clock has passed the moment of the purchase
    by more than 30 days (at exactly 30 days it still answers [True]). *)
Theorem has_recent_purchase_spec (s : state) (identity package_code : string) :
  lowered (purchases s) ->
  not_in_future s ->
  is_ascii identity = true ->
  int64 (clock s) ->
  (forall days,
      int64 (clock s - days * 86400) ->
      exists b,
        has_recent_purchase identity package_code days s = (Returned b, s) /\
        (b = true <->
         has_purchase_since (purchases s) identity package_code
                            (clock s - days * 86400)))
  /\
  (let s1 := snd (record_purchase identity package_code s) in
   int64 (clock s - 30 * 86400) ->
   (forall identity',
       same_ignoring_case identity' identity ->
       has_recent_purchase identity' package_code 30 s1 = (Returned true, s1)) /\
   has_recent_purchase identity package_code 30
     (advance_clock (clock s + 30 * 86400) s1)
   = (Returned true, advance_clock (clock s + 30 * 86400) s1) /\
   forall t,
     clock s + 30 * 86400 < t -> int64 t ->
     has_recent_purchase identity package_code 30 (advance_clock t s1)
     = (Returned false, advance_clock t s1)).
Proof.
  intros Hlow Hfut _ _. split.
  - intros days _. eexists. split; [apply has_recent_purchase_run|].
    now apply existsb_purchase_iff.
  - cbv zeta. intros _. rewrite record_purchase_run. simpl.
    assert (New : forall identity' t,
               same_ignoring_case identity' identity ->
               t <= clock s + 30 * 86400 ->
               existsb (row_matches (PyStr.lower identity') package_code
                                    (t - 30 * 86400))
                   (purchases s ++
                    [Ledger.mkPurchase (PyStr.lower identity) package_code (clock s)])
               = true).
    { intros identity' t Hsame Ht. rewrite existsb_app. apply orb_true_iff.
      right. simpl. apply orb_true_iff. left. apply row_matches_true. simpl.
      repeat split; [|lia]. symmetry. now apply lower_eq_iff. }
    split; [|split].
    + intros identity' Hsame. rewrite has_recent_purchase_run. simpl.
      f_equal. f_equal. apply New; [exact Hsame | lia].
    + rewrite has_recent_purchase_run. simpl. f_equal. f_equal.
      apply New; [|lia]. apply lower_eq_iff. reflexivity.
    + intros t Ht _. rewrite has_recent_purchase_run. simpl. f_equal. f_equal.
      apply not_true_is_false. intro E.
      apply existsb_exists in E. destruct E as (r & Hin & Hr).
      apply row_matches_true in Hr. destruct Hr as (_ & _ & Hc).
      apply in_app_or in Hin. destruct Hin as [Hin|[<-|[]]].
      * unfold not_in_future in Hfut. rewrite Forall_forall in Hfut.
        specialize (Hfut r Hin). lia.
      * simpl in Hc. lia.
Qed.

Lemma same_ignoring_case_refl (a : string) : same_ignoring_case a a.
Proof. apply lower_eq_iff. reflexivity. Qed.

Lemma has_recent_purchase_spec_witness :
  lowered (purchases one_row_state) /\
  not_in_future one_row_state /\
  has_recent_purchase "USER@example.COM" "snapshot" 30
    (snd (record_purchase "User@Example.com" "snapshot" one_row_state))
  = (Returned true,
     snd (record_purchase "User@Example.com" "snapshot" one_row_state)).
Proof.
  assert (L : lowered (purchases one_row_state)) by (repeat constructor).
  assert (F : not_in_future one_row_state).
  { unfold not_in_future. simpl. repeat constructor. simpl. lia. }
  assert (A : is_ascii "User@Example.com" = true) by reflexivity.
  assert (I : int64 (clock one_row_state)).
  { unfold int64. simpl. lia. }
  assert (J : int64 (clock one_row_state - 30 * 86400)).
  { unfold int64. simpl. lia. }
  split; [exact L|]. split; [exact F|].
  apply (proj1 (proj2 (has_recent_purchase_spec one_row_state
                         "User@Example.com" "snapshot" L F A I) J)).
  apply lower_eq_iff. reflexivity.
Defined.

(* ================================================================== *)
(** ** The webhook *)

Section WebhookProperties.

Variable cfg : Startup.config.
Variable verify_header : string -> option string -> option string -> outcome unit.
Variable json_loads : string -> outcome Stripe.Event.
Variable list_line_items : string -> Z -> outcome Stripe.LineItems.

#[local] Abbreviation webhook :=
  (stripe_webhook cfg verify_header json_loads list_line_items).
#[local] Abbreviation authenticate request :=
  (construct_event verify_header json_loads
     (Request.body request)
     (Request.headers request "stripe-signature")
     (Startup.STRIPE_WEBHOOK_SECRET cfg)).
#[local] Abbreviation labels_of := (line_item_labels list_line_items).
#[local] Abbreviation package_of := (session_package list_line_items).
#[local] Abbreviation qualified :=
  (qualifies cfg verify_header json_loads list_line_items).

Lemma webhook_rejected request s e :
  authenticate request = Raised e ->
  webhook request s =
  (Raised (HTTPException 400
     ("Webhook signature verification failed: " ++ exn_str e)), s).
Proof.
  intro H. unfold stripe_webhook, bind, try_except, call, raise.
  now rewrite H.
Qed.

Lemma webhook_other_type request s event :
  authenticate request = Returned event ->
  Stripe.type event <> "checkout.session.completed" ->
  webhook request s = (Returned received, s).
Proof.
  intros H Hty. unfold stripe_webhook, bind, try_except, call.
  rewrite H. apply String.eqb_neq in Hty. now rewrite Hty.
Qed.

Lemma webhook_completed request s event :
  authenticate request = Returned event ->
  Stripe.type event = "checkout.session.completed" ->
  webhook request s =
  (Returned received,
   match session_email (Stripe.data_object event),
         package_of (Stripe.data_object event) with
   | Some identity, Some code =>
       if PyStr.nonempty identity && PyStr.nonempty code
       then with_row s (Ledger.mkPurchase (PyStr.lower identity) code (clock s))
       else s
   | _, _ => s
   end).
Proof.
  intros H Hty. unfold stripe_webhook, bind, try_except, call.
  rewrite H. apply String.eqb_eq in Hty. rewrite Hty.
  unfold session_package.
  destruct (session_email (Stripe.data_object event)) as [identity|];
    destruct (match_package PACKAGE_MATCHERS
                (Stripe.amount_total (Stripe.data_object event))
                (labels_of (Stripe.data_object event))) as [code|];
    try reflexivity.
  now destruct (PyStr.nonempty identity && PyStr.nonempty code).
Qed.

Lemma session_package_configured session code :
  package_of session = Some code ->
  PyStr.nonempty code = true /\
  exists item, In item PACKAGE_MATCHERS /\ fst item = code.
Proof.
  unfold session_package.
  rewrite (match_package_char _ _ _ PACKAGE_MATCHERS_codes_nonempty).
  intro H.
  assert (G : exists item, In item PACKAGE_MATCHERS /\ fst item = code).
  { destruct (last_amount_match PACKAGE_MATCHERS (Stripe.amount_total session))
      as [c|] eqn:E.
    - injection H as <-.
      destruct (last_amount_match_In _ _ _ E) as (it & Hin & Hc & _). eauto.
    - destruct (first_keyword_match_In _ _ _ H) as (it & Hin & Hc & _). eauto. }
  split; [|exact G].
  destruct G as (it & Hin & <-).
  pose proof PACKAGE_MATCHERS_codes_nonempty as N.
  unfold codes_nonempty in N. rewrite Forall_forall in N. now apply N.
Qed.

Lemma with_row_neq s r : with_row s r <> s.
Proof.
  intro E. apply (f_equal purchases) in E. simpl in E.
  apply (f_equal (@List.length _)) in E. rewrite List.length_app in E. simpl in E.
  apply (f_equal Z.of_nat) in E. lia.
Qed.

(** The webhook keeps both properties of the table that
    [has_recent_purchase] is read under: stored identities stay in lower
    case and no row is stamped after the clock. *)
Lemma webhook_keeps_lowered request s :
  lowered (purchases s) -> lowered (purchases (snd (webhook request s))).
Proof.
  intro H.
  destruct (authenticate request) as [event|e] eqn:Hev.
  2:{ now rewrite (webhook_rejected _ _ _ Hev). }
  destruct (String.eqb_spec (Stripe.type event) "checkout.session.completed")
    as [Hty|Hty].
  2:{ now rewrite (webhook_other_type _ _ _ Hev Hty). }
  rewrite (webhook_completed _ _ _ Hev Hty). simpl.
  destruct (session_email (Stripe.data_object event)) as [identity|]; trivial.
  destruct (package_of (Stripe.data_object event)) as [code|]; trivial.
  destruct (PyStr.nonempty identity && PyStr.nonempty code); trivial.
  simpl. apply Forall_app. split; [exact H|].
  constructor; [|constructor]. simpl. now rewrite lower_idem.
Qed.

Lemma webhook_keeps_not_in_future request s :
  not_in_future s -> not_in_future (snd (webhook request s)).
Proof.
  intro H.
  destruct (authenticate request) as [event|e] eqn:Hev.
  2:{ now rewrite (webhook_rejected _ _ _ Hev). }
  destruct (String.eqb_spec (Stripe.type event) "checkout.session.completed")
    as [Hty|Hty].
  2:{ now rewrite (webhook_other_type _ _ _ Hev Hty). }
  rewrite (webhook_completed _ _ _ Hev Hty). simpl.
  destruct (session_email (Stripe.data_object event)) as [identity|]; trivial.
  destruct (package_of (Stripe.data_object event)) as [code|]; trivial.
  destruct (PyStr.nonempty identity && PyStr.nonempty code); trivial.
  unfold not_in_future in *. simpl. apply Forall_app. split; [exact H|].
  constructor; [|constructor]. simpl. lia.
Qed.

Lemma with_row_inj s r r' : with_row s r = with_row s r' -> r = r'.
Proof.
  intro E. apply (f_equal purchases) in E. simpl in E.
  apply app_inv_head in E. now injection E.
Qed.

Lemma line_item_labels_Returned session line_items :
  list_line_items (Stripe.id session) 10 = Returned line_items ->
  labels_of session
  = String.concat " "
      (map (fun li => match Stripe.description li with
                      | Some d => d
                      | None => ""
                      end)
           (Stripe.data line_items)).
Proof.
  intro H. unfold line_item_labels. rewrite H. unfold PyStr.join. f_equal.
  apply map_ext. intro li. apply or_else_empty.
Qed.

(** For a configured package, the keyword test on the session's labels
    is the condition on its line items. *)
Lemma keyword_hit_line_items session item :
  In item PACKAGE_MATCHERS ->
  keyword_hit (labels_of session) item = true <->
  exists kw, In kw (label_keywords (snd item)) /\
             keyword_in_line_items list_line_items session kw.
Proof.
  intro Hitem. unfold keyword_hit, keyword_in_line_items.
  rewrite andb_true_iff, existsb_exists. split.
  - intros (Hne & kw & Hin & Hc). exists kw. split; [exact Hin|].
    apply contains_iff in Hc. destruct Hc as (pre & post & E).
    destruct (list_line_items (Stripe.id session) 10) as [line_items|e] eqn:L.
    + exists line_items, pre, post. split; [reflexivity|].
      now rewrite <- (line_item_labels_Returned _ _ L).
    + unfold line_item_labels in Hne. rewrite L in Hne. discriminate Hne.
  - intros (kw & Hin & line_items & pre & post & L & E).
    rewrite <- (line_item_labels_Returned _ _ L) in E.
    split.
    + apply nonempty_true_iff. intro Z.
      rewrite Z in E. simpl in E.
      assert (N : PyStr.lower kw <> "").
      { apply lower_nonempty. now apply (configured_keyword_nonempty item). }
      destruct pre; simpl in E; [|discriminate E].
      destruct (PyStr.lower kw); [now elim N | discriminate E].
    + exists kw. split; [exact Hin|]. apply contains_iff. eauto.
Qed.

(** The loop selects the code of a configured package that the session
    matches by amount or by line items, and selects one whenever there is
    such a package. *)
Lemma session_package_matches session :
  (forall code,
      package_of session = Some code ->
      exists item,
        In item PACKAGE_MATCHERS /\ fst item = code /\
        (Stripe.amount_total session = Some (amount (snd item))
         \/ exists kw, In kw (label_keywords (snd item)) /\
                       keyword_in_line_items list_line_items session kw))
  /\
  (package_of session = None ->
   forall item,
     In item PACKAGE_MATCHERS ->
     ~ (Stripe.amount_total session = Some (amount (snd item))
        \/ exists kw, In kw (label_keywords (snd item)) /\
                      keyword_in_line_items list_line_items session kw)).
Proof.
  unfold session_package, match_package. split.
  - intros code H.
    destruct (fold_match_step_Some _ _ _ _ _ H) as [E|(item & Hin & Hc & Hh)];
      [discriminate E|].
    exists item. repeat split; trivial.
    destruct Hh as [Ha|Hk].
    + left. now apply amount_hit_iff.
    + right. now apply keyword_hit_line_items.
  - intros H item Hin [Ha|Hk].
    + apply fold_match_step_None in H. destruct H as (_ & H).
      destruct (H item Hin) as (Hf & _).
      apply amount_hit_iff in Ha. congruence.
    + apply fold_match_step_None in H. destruct H as (_ & H).
      destruct (H item Hin) as (_ & Hf).
      apply (keyword_hit_line_items session item Hin) in Hk. congruence.
Qed.

#[local] Abbreviation conditions :=
  (purchase_conditions cfg verify_header json_loads list_line_items).

(** What [construct_event] returning means for the two library calls. *)
Lemma authenticate_Returned request event :
  authenticate request = Returned event <->
  exists u,
    verify_header (Request.body request)
                  (Request.headers request "stripe-signature")
                  (Startup.STRIPE_WEBHOOK_SECRET cfg) = Returned u /\
    json_loads (Request.body request) = Returned event.
Proof.
  unfold construct_event.
  destruct (verify_header _ _ _) as [u|e].
  - split; [eauto | now intros (_ & _ & H)].
  - split; [discriminate | intros (u & H & _); discriminate H].
Qed.

(** C2: the webhook appends a row only when the request passes the
    signature check and decodes to a completed checkout whose customer
    details carry a non-empty e-mail and which matches a configured
    package by amount or by line items; the row then holds the
    lower-cased e-mail, the code of a package the event matches and the
    time of the write, and it is the only row added. Under these
    conditions a handler that returns has written that row, and without
    them the state after the request is the state before it. *)
Theorem purchase_recorded_iff (request : Request.t) (s : state) :
  let res := fst (webhook request s) in
  let s' := snd (webhook request s) in
  (forall r,
      s' = with_row s r ->
      exists identity item,
        conditions request identity item /\
        r = Ledger.mkPurchase (PyStr.lower identity) (fst item) (clock s))
  /\
  (forall identity item,
      conditions request identity item ->
      res = Returned received ->
      exists item',
        conditions request identity item' /\
        s' = with_row s
               (Ledger.mkPurchase (PyStr.lower identity) (fst item') (clock s)))
  /\
  ((forall identity item, ~ conditions request identity item) -> s' = s).
Proof.
  cbv zeta.
  destruct (authenticate request) as [event|e] eqn:Hev.
  2:{ rewrite (webhook_rejected _ _ _ Hev). simpl. split; [|split].
      - intros r Hr. symmetry in Hr. now apply with_row_neq in Hr.
      - intros identity item (u & ev & details & Hv & Hj & _) _.
        assert (A : authenticate request = Returned ev)
          by (apply authenticate_Returned; eauto).
        rewrite Hev in A. discriminate A.
      - reflexivity. }
  pose proof (proj1 (authenticate_Returned _ _) Hev) as (u & Hv & Hj).
  destruct (String.eqb_spec (Stripe.type event) "checkout.session.completed")
    as [Hty|Hty].
  2:{ rewrite (webhook_other_type _ _ _ Hev Hty). simpl. split; [|split].
      - intros r Hr. symmetry in Hr. now apply with_row_neq in Hr.
      - intros identity item (u' & ev & details & _ & Hj' & Hty' & _) _.
        rewrite Hj in Hj'. injection Hj' as <-. now elim Hty.
      - reflexivity. }
  rewrite (webhook_completed _ _ _ Hev Hty). simpl.
  destruct (session_package_matches (Stripe.data_object event)) as (Psome & Pnone).
  assert (Inv : forall identity item,
             conditions request identity item ->
             session_email (Stripe.data_object event) = Some identity /\
             identity <> "" /\
             In item PACKAGE_MATCHERS /\
             (Stripe.amount_total (Stripe.data_object event)
              = Some (amount (snd item))
              \/ exists kw, In kw (label_keywords (snd item)) /\
                            keyword_in_line_items list_line_items
                              (Stripe.data_object event) kw)).
  { intros identity item (u' & ev & details & _ & Hj' & _ & Hcd & Hem & Hne & Hin & Hm).
    rewrite Hj in Hj'. injection Hj' as <-.
    unfold session_email. rewrite Hcd. auto. }
  assert (Mk : forall identity item,
             session_email (Stripe.data_object event) = Some identity ->
             identity <> "" ->
             In item PACKAGE_MATCHERS ->
             (Stripe.amount_total (Stripe.data_object event)
              = Some (amount (snd item))
              \/ exists kw, In kw (label_keywords (snd item)) /\
                            keyword_in_line_items list_line_items
                              (Stripe.data_object event) kw) ->
             conditions request identity item).
  { intros identity item Hid Hne Hin Hm. unfold session_email in Hid.
    destruct (Stripe.customer_details (Stripe.data_object event))
      as [details|] eqn:Hcd; [|discriminate Hid].
    exists u, event, details. auto 10. }
  destruct (session_email (Stripe.data_object event)) as [identity|] eqn:Hid.
  2:{ split; [|split].
      - intros r Hr. symmetry in Hr. now apply with_row_neq in Hr.
      - intros identity item Hc _. destruct (Inv _ _ Hc) as (E & _).
        discriminate E.
      - reflexivity. }
  destruct (package_of (Stripe.data_object event)) as [code|] eqn:Hpk.
  2:{ split; [|split].
      - intros r Hr. symmetry in Hr. now apply with_row_neq in Hr.
      - intros identity' item Hc _. destruct (Inv _ _ Hc) as (_ & _ & Hin & Hm).
        now elim (Pnone eq_refl item Hin).
      - reflexivity. }
  destruct (PyStr.nonempty identity) eqn:Hne.
  2:{ simpl. split; [|split].
      - intros r Hr. symmetry in Hr. now apply with_row_neq in Hr.
      - intros identity' item Hc _. destruct (Inv _ _ Hc) as (E & N & _).
        injection E as <-. apply nonempty_true_iff in N. congruence.
      - reflexivity. }
  destruct (session_package_configured _ _ Hpk) as (Hcode & _).
  rewrite Hcode. simpl.
  destruct (Psome code eq_refl) as (item0 & Hin0 & Hc0 & Hm0).
  assert (C0 : conditions request identity item0).
  { apply Mk; trivial. now apply nonempty_true_iff. }
  split; [|split].
  - intros r Hr. apply with_row_inj in Hr. subst r.
    exists identity, item0. split; [exact C0|]. now rewrite Hc0.
  - intros identity' item Hc _. destruct (Inv _ _ Hc) as (E & _).
    injection E as <-. exists item0. split; [exact C0|]. now rewrite Hc0.
  - intro Hno. now elim (Hno identity item0).
Qed.

(** C3: when the signature check rejects the request (a header that is
    wrong, malformed or missing), the handler raises the 400 of line 163
    and leaves the state as it was, whatever the body holds and whatever
    the decoder and the line-item lookup would do: the body is decoded
    only after the check has passed. *)
Theorem webhook_rejects_bad_signature (request : Request.t) (s : state) (e : exn) :
  verify_header (Request.body request)
                (Request.headers request "stripe-signature")
                (Startup.STRIPE_WEBHOOK_SECRET cfg) = Raised e ->
  webhook request s =
  (Raised (HTTPException 400
     ("Webhook signature verification failed: " ++ exn_str e)), s).
Proof.
  intro H. apply webhook_rejected. unfold construct_event. now rewrite H.
Qed.

(** C7: an authentic event of any other type than
    [checkout.session.completed] is acknowledged, with no write and no
    exception. *)
Theorem webhook_ignores_other_types
        (request : Request.t) (s : state) (event : Stripe.Event) :
  authenticate request = Returned event ->
  Stripe.type event <> "checkout.session.completed" ->
  webhook request s = (Returned received, s).
Proof. exact (webhook_other_type request s event). Qed.

(** C8: when the line-item lookup raises, the label text is empty, the
    package is selected by amount alone, and the event is acknowledged:
    the handler raises nothing. *)
Theorem line_item_failure_is_tolerated
        (request : Request.t) (s : state) (event : Stripe.Event) (e : exn) :
  authenticate request = Returned event ->
  Stripe.type event = "checkout.session.completed" ->
  list_line_items (Stripe.id (Stripe.data_object event)) 10 = Raised e ->
  labels_of (Stripe.data_object event) = "" /\
  webhook request s =
  (Returned received,
   match session_email (Stripe.data_object event),
         last_amount_match PACKAGE_MATCHERS
                           (Stripe.amount_total (Stripe.data_object event)) with
   | Some identity, Some code =>
       if PyStr.nonempty identity
       then with_row s (Ledger.mkPurchase (PyStr.lower identity) code (clock s))
       else s
   | _, _ => s
   end).
Proof.
  intros Hev Hty Hli.
  assert (L : labels_of (Stripe.data_object event) = "").
  { unfold line_item_labels. now rewrite Hli. }
  split; [exact L|].
  rewrite (webhook_completed _ _ _ Hev Hty).
  assert (P : package_of (Stripe.data_object event)
              = last_amount_match PACKAGE_MATCHERS
                  (Stripe.amount_total (Stripe.data_object event))).
  { unfold session_package. rewrite L. apply match_package_no_labels. }
  rewrite P.
  destruct (session_email (Stripe.data_object event)) as [identity|];
    [|reflexivity].
  destruct (last_amount_match PACKAGE_MATCHERS
              (Stripe.amount_total (Stripe.data_object event)))
    as [code|]; [|reflexivity].
  destruct (session_package_configured _ _ P) as [N _].
  now rewrite N, andb_true_r.
Qed.

Lemma webhook_absent_identity
      (request : Request.t) (s : state) (event : Stripe.Event) :
  authenticate request = Returned event ->
  Stripe.type event = "checkout.session.completed" ->
  session_email (Stripe.data_object event) = None ->
  webhook request s = (Returned received, s).
Proof.
  intros Hev Hty Hid. now rewrite (webhook_completed _ _ _ Hev Hty), Hid.
Qed.

(** C10: a completed checkout whose customer-details e-mail is the empty
    string is handled as one without an e-mail: nothing is written,
    nothing is raised, and the event is acknowledged. *)
Theorem empty_email_is_no_identity
        (request : Request.t) (s : state) (event : Stripe.Event) :
  authenticate request = Returned event ->
  Stripe.type event = "checkout.session.completed" ->
  session_email (Stripe.data_object event) = Some "" ->
  webhook request s = (Returned received, s).
Proof.
  intros Hev Hty Hid.
  rewrite (webhook_completed _ _ _ Hev Hty), Hid.
  now destruct (package_of (Stripe.data_object event)).
Qed.

End WebhookProperties.

(* ================================================================== *)
(** ** The full report *)

Section ReportProperties.

Variable cfg : Startup.config.
Variable gather : get_call -> get_call -> outcome (Response.t * Response.t).

#[local] Abbreviation report := (full_report cfg gather).
#[local] Abbreviation paid_for req :=
  (has_recent_purchase (FullReportReq.email req) (FullReportReq.package req) 30).
#[local] Abbreviation gets_of req := [est_call cfg req; comps_call cfg req].

Lemma full_report_denied req s :
  paid_for req s = (Returned false, s) ->
  report req s = (Raised (HTTPException 402 "Purchase not found yet"), s).
Proof.
  intro H. unfold full_report, bind. now rewrite H.
Qed.

Lemma full_report_allowed req s :
  paid_for req s = (Returned true, s) ->
  report req s = fetch cfg gather req s.
Proof.
  intro H. unfold full_report, bind. now rewrite H.
Qed.

Lemma fetch_run req s :
  fetch cfg gather req s =
  (match gather (est_call cfg req) (comps_call cfg req) with
   | Raised e => Raised e
   | Returned (est_res, comps_res) =>
       if Response.status_code est_res >=? 400
       then Raised (HTTPException 500 "RentCast estimate failed")
       else if Response.status_code comps_res >=? 400
       then Raised (HTTPException 500 "RentCast comps failed")
       else match Response.json est_res, Response.json comps_res with
            | Returned estimate, Returned comps =>
                Returned (JObj [("estimate", estimate); ("comps", comps)])
            | Raised e, _ => Raised e
            | Returned _, Raised e => Raised e
            end
   end,
   with_gets s (gets_of req)).
Proof.
  unfold fetch, bind, client_get, call, raise, ret, with_gets. simpl.
  rewrite <- app_assoc. simpl.
  destruct (gather (est_call cfg req) (comps_call cfg req))
    as [[est_res comps_res]|e]; [|reflexivity].
  destruct (Response.status_code est_res >=? 400); [reflexivity|].
  destruct (Response.status_code comps_res >=? 400); [reflexivity|].
  destruct (Response.json est_res); [|reflexivity].
  now destruct (Response.json comps_res).
Qed.

(** The purchase check has two outcomes, and each decides the run. *)
Lemma full_report_cases req s :
  (paid_for req s = (Returned true, s) /\
   report req s = fetch cfg gather req s)
  \/
  (paid_for req s = (Returned false, s) /\
   report req s = (Raised (HTTPException 402 "Purchase not found yet"), s)).
Proof.
  pose proof (has_recent_purchase_run (FullReportReq.email req)
                (FullReportReq.package req) 30 s) as R.
  destruct (existsb (row_matches (PyStr.lower (FullReportReq.email req))
                       (FullReportReq.package req) (clock s - 30 * 86400))
                    (purchases s)).
  - left. split; [exact R|]. now apply full_report_allowed.
  - right. split; [exact R|]. now apply full_report_denied.
Qed.

(** C4: on a table whose identities are stored in lower case, for an
    ASCII e-mail, [full_report] runs the composite fetch exactly when the
    table holds a purchase of the requested package by the requested
    e-mail, whatever the case of its letters, stamped within the last 30
    days; otherwise it raises the 402 of line 197 (the fetch's own
    failures are 500s) and the state is untouched: no GET is handed to
    the client. *)
Theorem full_report_gate (req : FullReportReq.t) (s : state) :
  lowered (purchases s) ->
  is_ascii (FullReportReq.email req) = true ->
  (has_purchase_since (purchases s) (FullReportReq.email req)
                      (FullReportReq.package req) (clock s - 30 * 86400) ->
   report req s = fetch cfg gather req s /\
   snd (report req s) = with_gets s (gets_of req))
  /\
  (~ has_purchase_since (purchases s) (FullReportReq.email req)
                        (FullReportReq.package req) (clock s - 30 * 86400) ->
   report req s = (Raised (HTTPException 402 "Purchase not found yet"), s) /\
   client_gets (snd (report req s)) = client_gets s).
Proof.
  intros Hlow _.
  pose proof (existsb_purchase_iff (FullReportReq.email req)
                (FullReportReq.package req) (clock s - 30 * 86400)
                (purchases s) Hlow) as Hiff.
  destruct (full_report_cases req s) as [(R & A)|(R & D)];
    rewrite has_recent_purchase_run in R; injection R as R.
  - split.
    + intros _. split; [exact A|]. now rewrite A, fetch_run.
    + intro Hno. elim Hno. apply (proj1 Hiff). exact R.
  - split.
    + intro Hyes. apply (proj2 Hiff) in Hyes.
      exfalso. exact (eq_true_false_abs _ Hyes R).
    + intros _. split; [exact D|]. now rewrite D.
Qed.

End ReportProperties.

(** C6 (defect of line 208): past the purchase check, [full_report]
    as it runs with httpx raises the [AttributeError] of the missing
    [AsyncClient.gather], whatever the two upstream calls would have
    answered: no status is tested and no leg is named. *)
Theorem full_report_gather_missing
        (cfg : Startup.config) (req : FullReportReq.t) (s : state) :
  fst (has_recent_purchase (FullReportReq.email req)
                           (FullReportReq.package req) 30 s) = Returned true ->
  full_report cfg AsyncClient_gather req s =
  (Raised attribute_error, with_gets s [est_call cfg req; comps_call cfg req]).
Proof.
  intro Hp.
  destruct (full_report_cases cfg AsyncClient_gather req s) as [(_ & A)|(D & _)].
  - rewrite A, fetch_run. reflexivity.
  - rewrite D in Hp. discriminate Hp.
Qed.


(** The scenarios of the specification's section 8, run on the handlers. *)
Example scenario_amount_2900 :
  Demo.webhook (Demo.signed "snapshot-paid") Demo.s0 =
  (Returned received,
   mkState [Ledger.mkPurchase "user@example.com" "snapshot" 1700000000]
           1700000000 []).
Proof. reflexivity. Qed.

Example scenario_investor_by_label :
  Demo.webhook (Demo.signed "investor-by-label") Demo.s0 =
  (Returned received,
   mkState [Ledger.mkPurchase "user@example.com" "investor" 1700000000]
           1700000000 []).
Proof. reflexivity. Qed.

Example scenario_not_entitled :
  full_report Demo.cfg AsyncClient_gather Demo.req Demo.s0 =
  (Raised (HTTPException 402 "Purchase not found yet"), Demo.s0).
Proof. reflexivity. Qed.

Lemma webhook_rejects_bad_signature_witness :
  Demo.webhook (Demo.unsigned "snapshot-paid") Demo.s0 =
  (Raised (HTTPException 400
     "Webhook signature verification failed: Unable to extract timestamp and signatures from header"),
   Demo.s0).
Proof.
  apply (webhook_rejects_bad_signature Demo.cfg Demo.verify_header
           Demo.json_loads Demo.list_line_items
           (Demo.unsigned "snapshot-paid") Demo.s0
           (Exception "Unable to extract timestamp and signatures from header")).
  reflexivity.
Defined.

Lemma webhook_ignores_other_types_witness :
  Demo.webhook (Demo.signed "refund") Demo.s_paid = (Returned received, Demo.s_paid).
Proof.
  apply (webhook_ignores_other_types Demo.cfg Demo.verify_header
           Demo.json_loads Demo.list_line_items
           (Demo.signed "refund") Demo.s_paid
           (Stripe.mkEvent "charge.refunded"
              (Stripe.mkSession "ch_1" (Demo.buyer "user@example.com") (Some 2900)))).
  - reflexivity.
  - simpl. discriminate.
Defined.

Lemma line_item_failure_is_tolerated_witness :
  Demo.webhook (Demo.signed "investor-no-items") Demo.s0 =
  (Returned received,
   mkState [Ledger.mkPurchase "buyer@example.com" "investor" 1700000000]
           1700000000 []).
Proof.
  apply (proj2 (line_item_failure_is_tolerated Demo.cfg Demo.verify_header
           Demo.json_loads Demo.list_line_items
           (Demo.signed "investor-no-items") Demo.s0
           (Stripe.mkEvent "checkout.session.completed"
              (Stripe.mkSession "cs_3" (Demo.buyer "Buyer@Example.com") (Some 7900)))
           (Exception "No such checkout session")
           eq_refl eq_refl eq_refl)).
Defined.

Lemma empty_email_is_no_identity_witness :
  Demo.webhook (Demo.signed "empty-email") Demo.s0 = (Returned received, Demo.s0).
Proof.
  apply (empty_email_is_no_identity Demo.cfg Demo.verify_header
           Demo.json_loads Demo.list_line_items
           (Demo.signed "empty-email") Demo.s0
           (Stripe.mkEvent "checkout.session.completed"
              (Stripe.mkSession "cs_1" (Demo.buyer "") (Some 2900))));
    reflexivity.
Defined.

Lemma full_report_gate_witness :
  lowered (purchases Demo.s_paid) /\
  is_ascii (FullReportReq.email Demo.req) = true /\
  full_report Demo.cfg AsyncClient_gather Demo.req Demo.s_paid
  = fetch Demo.cfg AsyncClient_gather Demo.req Demo.s_paid.
Proof.
  assert (L : lowered (purchases Demo.s_paid)) by (repeat constructor).
  assert (A : is_ascii (FullReportReq.email Demo.req) = true) by reflexivity.
  split; [exact L|]. split; [exact A|].
  apply (proj1 (full_report_gate Demo.cfg AsyncClient_gather
                  Demo.req Demo.s_paid L A)).
  exists (Ledger.mkPurchase "user@example.com" "snapshot" (1700000000 - 10 * 86400)).
  split; [left; reflexivity|]. split.
  - apply lower_eq_iff. reflexivity.
  - split; [reflexivity | simpl; lia].
Defined.

Lemma full_report_gather_missing_witness :
  full_report Demo.cfg AsyncClient_gather Demo.req Demo.s_paid =
  (Raised attribute_error,
   with_gets Demo.s_paid
     [est_call Demo.cfg Demo.req; comps_call Demo.cfg Demo.req]).
Proof.
  apply (full_report_gather_missing Demo.cfg Demo.req Demo.s_paid).
  reflexivity.
Defined.

(* ================================================================== *)
(** ** More on the matcher *)

(** The keyword test of lines 183-184 fires exactly when the label text
    is not empty and, both taken in lower case, one of the matcher's
    keywords occurs in it as a contiguous piece. *)
Theorem keyword_hit_iff (labels : string) (item : string * matcher) :
  keyword_hit labels item = true <->
  labels <> "" /\
  exists kw pre post,
    In kw (label_keywords (snd item)) /\
    PyStr.lower labels = pre ++ PyStr.lower kw ++ post.
Proof.
  unfold keyword_hit.
  rewrite andb_true_iff, nonempty_true_iff, existsb_exists.
  split; intros (Hne & H); (split; [exact Hne|]).
  - destruct H as (kw & Hin & Hc). apply contains_iff in Hc.
    destruct Hc as (pre & post & E). eauto 6.
  - destruct H as (kw & pre & post & Hin & E). exists kw. split; trivial.
    apply contains_iff. eauto.
Qed.

(** The loop selects only what matched, and selects whenever something
    matched: a selected code is the code of a matcher whose amount is
    the total or one of whose keywords is in the labels, and nothing is
    selected exactly when no matcher matches either way. This holds for
    every table of matchers. *)
Theorem match_package_sound_complete
        (matchers : list (string * matcher))
        (amount_total : option Z) (labels : string) :
  (forall c,
      match_package matchers amount_total labels = Some c ->
      exists item,
        In item matchers /\ fst item = c /\
        (amount_hit amount_total item = true \/ keyword_hit labels item = true))
  /\
  (match_package matchers amount_total labels = None <->
   forall item, In item matchers ->
                amount_hit amount_total item = false /\
                keyword_hit labels item = false).
Proof.
  unfold match_package. split.
  - intros c H. destruct (fold_match_step_Some _ _ _ _ _ H) as [E|E];
      [discriminate E | exact E].
  - rewrite fold_match_step_None. intuition.
Qed.

(** For the configured packages, a total equal to a package's amount
    selects that package whatever the line items say. *)
Theorem configured_amount_decides (item : string * matcher) (labels : string) :
  In item PACKAGE_MATCHERS ->
  match_package PACKAGE_MATCHERS (Some (amount (snd item))) labels
  = Some (fst item).
Proof.
  intro Hin.
  rewrite (match_package_char _ _ _ PACKAGE_MATCHERS_codes_nonempty).
  simpl in Hin. destruct Hin as [<-|[<-|[<-|[]]]]; reflexivity.
Qed.

Lemma configured_amount_decides_witness :
  match_package PACKAGE_MATCHERS (Some 7900) "Snapshot and Full Consultation"
  = Some "investor".
Proof.
  apply (configured_amount_decides ("investor", mkMatcher 7900 ["Investor"])
           "Snapshot and Full Consultation").
  simpl. right. left. reflexivity.
Defined.

(** For the configured packages, a total that is none of the three
    amounts (or is absent) leaves the choice to the keywords: the first
    package in configuration order with a keyword in the labels. *)
Theorem configured_keyword_fallback (amount_total : option Z) (labels : string) :
  (forall item, In item PACKAGE_MATCHERS -> amount_hit amount_total item = false) ->
  match_package PACKAGE_MATCHERS amount_total labels
  = first_keyword_match PACKAGE_MATCHERS labels.
Proof.
  intro H.
  rewrite (match_package_char _ _ _ PACKAGE_MATCHERS_codes_nonempty).
  destruct (last_amount_match PACKAGE_MATCHERS amount_total) as [c|] eqn:E;
    [|reflexivity].
  destruct (last_amount_match_In _ _ _ E) as (it & Hin & _ & Hh).
  rewrite (H it Hin) in Hh. discriminate Hh.
Qed.

Lemma configured_keyword_fallback_witness :
  match_package PACKAGE_MATCHERS None "FULL consultation + snapshot"
  = Some "snapshot".
Proof.
  apply (configured_keyword_fallback None "FULL consultation + snapshot").
  intros item _. reflexivity.
Defined.

(** The matcher reads the labels without regard to case. *)
Theorem match_package_labels_case
        (matchers : list (string * matcher))
        (amount_total : option Z) (labels labels' : string) :
  PyStr.lower labels = PyStr.lower labels' ->
  match_package matchers amount_total labels
  = match_package matchers amount_total labels'.
Proof.
  intro H. unfold match_package.
  assert (N : PyStr.nonempty labels = PyStr.nonempty labels').
  { now rewrite <- (nonempty_lower labels), H, nonempty_lower. }
  assert (S : forall acc item,
             match_step amount_total labels acc item
             = match_step amount_total labels' acc item).
  { intros acc [code m]. unfold match_step. now rewrite N, H. }
  generalize (@None string).
  induction matchers as [|item rest IH]; intro acc; simpl.
  - reflexivity.
  - now rewrite S, IH.
Qed.

Lemma match_package_labels_case_witness :
  match_package PACKAGE_MATCHERS (Some 0) "INVESTOR package"
  = match_package PACKAGE_MATCHERS (Some 0) "investor PACKAGE".
Proof.
  apply (match_package_labels_case PACKAGE_MATCHERS (Some 0)
           "INVESTOR package" "investor PACKAGE").
  reflexivity.
Defined.

(* ================================================================== *)
(** ** More on the purchase table *)

(** A purchase recorded under one spelling of an ASCII e-mail is found
    under every spelling that differs only in case, for any window of
    zero or more days whose cutoff SQLite can bind, as long as the clock
    has not moved. *)
Theorem record_then_found_any_case
        (s : state) (identity identity' package_code : string) (days : Z) :
  is_ascii identity = true ->
  int64 (clock s) ->
  int64 (clock s - days * 86400) ->
  PyStr.lower identity' = PyStr.lower identity ->
  0 <= days ->
  let s1 := snd (record_purchase identity package_code s) in
  has_recent_purchase identity' package_code days s1 = (Returned true, s1).
Proof.
  intros _ _ _ Hcase Hdays. cbv zeta.
  rewrite record_purchase_run, has_recent_purchase_run. simpl.
  f_equal. f_equal. rewrite existsb_app. apply orb_true_iff. right. simpl.
  apply orb_true_iff. left. apply row_matches_true. simpl.
  repeat split; [now rewrite Hcase | lia].
Qed.

Lemma record_then_found_any_case_witness :
  has_recent_purchase "USER@example.COM" "investor" 0
    (snd (record_purchase "User@Example.com" "investor" Demo.s0))
  = (Returned true, snd (record_purchase "User@Example.com" "investor" Demo.s0)).
Proof.
  apply (record_then_found_any_case Demo.s0 "User@Example.com"
           "USER@example.COM" "investor" 0).
  - reflexivity.
  - unfold int64. simpl. lia.
  - unfold int64. simpl. lia.
  - reflexivity.
  - lia.
Defined.

(** A longer window never loses a purchase that a shorter one finds,
    for windows whose cutoffs SQLite can bind. *)
Theorem has_recent_purchase_window_monotone
        (s : state) (identity package_code : string) (days days' : Z) :
  int64 (clock s - days * 86400) ->
  int64 (clock s - days' * 86400) ->
  days <= days' ->
  fst (has_recent_purchase identity package_code days s) = Returned true ->
  fst (has_recent_purchase identity package_code days' s) = Returned true.
Proof.
  intros _ _ Hle. rewrite !has_recent_purchase_run. simpl.
  intro H. injection H as H. f_equal.
  apply existsb_exists in H. destruct H as (r & Hin & Hr).
  apply existsb_exists. exists r. split; [exact Hin|].
  apply row_matches_true in Hr. apply row_matches_true.
  destruct Hr as (He & Hp & Hc). repeat split; trivial. lia.
Qed.

Lemma has_recent_purchase_window_monotone_witness :
  fst (has_recent_purchase "user@example.com" "snapshot" 30 Demo.s_paid)
  = Returned true.
Proof.
  apply (has_recent_purchase_window_monotone Demo.s_paid
           "user@example.com" "snapshot" 10 30).
  - unfold int64. simpl. lia.
  - unfold int64. simpl. lia.
  - lia.
  - reflexivity.
Defined.

(** Recording a purchase changes the answer for no other identity and no
    other package: for ASCII e-mails, a query that differs in the
    lower-cased e-mail or in the package (packages are compared exactly,
    case included) is answered as before. *)
Theorem record_purchase_entitles_only_its_own
        (s : state) (identity package_code identity' package_code' : string)
        (days : Z) :
  is_ascii identity = true ->
  is_ascii identity' = true ->
  PyStr.lower identity' <> PyStr.lower identity \/ package_code' <> package_code ->
  fst (has_recent_purchase identity' package_code' days
         (snd (record_purchase identity package_code s)))
  = fst (has_recent_purchase identity' package_code' days s).
Proof.
  intros _ _ Hdiff. rewrite record_purchase_run, !has_recent_purchase_run. simpl.
  f_equal. rewrite existsb_app. simpl. rewrite orb_false_r.
  replace (row_matches (PyStr.lower identity') package_code'
             (clock s - days * 86400)
             (Ledger.mkPurchase (PyStr.lower identity) package_code (clock s)))
    with false; [apply orb_false_r|].
  symmetry. apply not_true_is_false. intro H.
  apply row_matches_true in H. simpl in H. destruct H as (He & Hp & _).
  destruct Hdiff as [Hd|Hd]; [now elim Hd | now elim Hd].
Qed.

Lemma record_purchase_entitles_only_its_own_witness :
  fst (has_recent_purchase "user@example.com" "Snapshot" 30
         (snd (record_purchase "user@example.com" "snapshot" Demo.s0)))
  = fst (has_recent_purchase "user@example.com" "Snapshot" 30 Demo.s0).
Proof.
  apply (record_purchase_entitles_only_its_own Demo.s0
           "user@example.com" "snapshot" "user@example.com" "Snapshot" 30).
  - reflexivity.
  - reflexivity.
  - right. discriminate.
Defined.

(* ================================================================== *)
(** ** Module initialisation, the successful case *)

(** The module body runs through exactly when the four required
    variables are set to non-empty strings (a variable set to the empty
    string counts as missing); the configuration then holds these four
    values, and for the origin and the database path the value of the
    environment or else the default. *)
Theorem module_init_succeeds_iff (env : Startup.environ) (cfg : Startup.config) :
  Startup.module_init env = inl cfg <->
  exists g r sk wh,
    env "GOOGLE_MAPS_API_KEY" = Some g /\ g <> "" /\
    env "RENTCAST_API_KEY" = Some r /\ r <> "" /\
    env "STRIPE_SECRET_KEY" = Some sk /\ sk <> "" /\
    env "STRIPE_WEBHOOK_SECRET" = Some wh /\ wh <> "" /\
    cfg = Startup.mkConfig (Some g) (Some r) (Some sk) (Some wh)
            (match env "ALLOWED_ORIGIN" with
             | Some o => o
             | None => "https://superiorllc.org"
             end)
            (match env "PURCHASE_DB" with
             | Some d => d
             | None => "/tmp/purchases.db"
             end).
Proof.
  unfold Startup.module_init, Startup.getenv_default. cbv zeta.
  destruct (env "GOOGLE_MAPS_API_KEY") as [g|];
    destruct (env "RENTCAST_API_KEY") as [r|];
    destruct (env "STRIPE_SECRET_KEY") as [sk|];
    destruct (env "STRIPE_WEBHOOK_SECRET") as [wh|]; simpl;
    rewrite ?andb_false_r; simpl;
    try (split; [discriminate | intros (? & ? & ? & ? & H); intuition discriminate]).
  destruct g as [|g0 g]; destruct r as [|r0 r]; destruct sk as [|sk0 sk];
    destruct wh as [|wh0 wh]; simpl;
    try (split; [discriminate
                | intros (? & ? & ? & ? & H);
                  repeat match goal with
                         | H : _ /\ _ |- _ => destruct H
                         | H : Some _ = Some _ |- _ => injection H as <-
                         end; congruence]).
  split.
  - intro H. injection H as <-. do 4 eexists.
    repeat split; try reflexivity; discriminate.
  - intros (g' & r' & sk' & wh' & H).
    repeat match goal with
           | H : _ /\ _ |- _ => destruct H
           | H : Some _ = Some _ |- _ => injection H; clear H; intros; subst
           end.
    reflexivity.
Qed.

(* ================================================================== *)
(** ** More on the handlers *)

Section HandlerProperties.

Variable cfg : Startup.config.
Variable verify_header : string -> option string -> option string -> outcome unit.
Variable json_loads : string -> outcome Stripe.Event.
Variable list_line_items : string -> Z -> outcome Stripe.LineItems.
Variable gather : get_call -> get_call -> outcome (Response.t * Response.t).

#[local] Abbreviation webhook :=
  (stripe_webhook cfg verify_header json_loads list_line_items).
#[local] Abbreviation authenticate request :=
  (construct_event verify_header json_loads
     (Request.body request)
     (Request.headers request "stripe-signature")
     (Startup.STRIPE_WEBHOOK_SECRET cfg)).
#[local] Abbreviation package_of := (session_package list_line_items).
#[local] Abbreviation qualified :=
  (qualifies cfg verify_header json_loads list_line_items).
#[local] Abbreviation report := (full_report cfg gather).
#[local] Abbreviation gets_of req := [est_call cfg req; comps_call cfg req].
#[local] Abbreviation after actions :=
  (run cfg verify_header json_loads list_line_items gather actions).

(** Every run of the webhook is one of three. *)
Lemma webhook_cases request s :
  (exists e,
      webhook request s =
      (Raised (HTTPException 400
         ("Webhook signature verification failed: " ++ exn_str e)), s))
  \/ webhook request s = (Returned received, s)
  \/ exists r,
      webhook_row (clock s) r /\
      webhook request s = (Returned received, with_row s r).
Proof.
  destruct (authenticate request) as [event|e] eqn:Hev.
  2:{ left. exists e. now apply webhook_rejected. }
  right.
  destruct (String.eqb_spec (Stripe.type event) "checkout.session.completed")
    as [Hty|Hty].
  2:{ left. now apply (webhook_other_type _ _ _ _ _ _ event). }
  rewrite (webhook_completed _ _ _ _ _ _ _ Hev Hty).
  destruct (session_email (Stripe.data_object event)) as [identity|];
    [|now left].
  destruct (package_of (Stripe.data_object event)) as [code|] eqn:Hpk;
    [|now left].
  destruct (PyStr.nonempty identity) eqn:Hne; [|now left].
  destruct (session_package_configured _ _ _ Hpk) as (Hcode & Hin).
  rewrite Hcode. simpl. right. eexists. split; [|reflexivity].
  unfold webhook_row. simpl. rewrite lower_idem.
  repeat split; trivial.
  apply lower_nonempty. now apply nonempty_true_iff.
Qed.

(** What the webhook does not do. It leaves the clock and the HTTP
    client alone. It leaves the table as it was or longer by one row,
    stamped with the present time, holding a non-empty lower-case e-mail
    and the code of a configured package. What it returns is the
    acknowledgement; an [HTTPException] it raises is the 400 of line 163
    and comes with no write. (Other exceptions, of the database or of an
    event without the expected fields, are outside this model and are
    not spoken of.) *)
Theorem webhook_outcomes (request : Request.t) (s : state) :
  let res := fst (webhook request s) in
  let s' := snd (webhook request s) in
  clock s' = clock s /\
  client_gets s' = client_gets s /\
  (s' = s \/ exists r, webhook_row (clock s) r /\ s' = with_row s r) /\
  (forall j, res = Returned j -> j = received) /\
  (forall status detail,
      res = Raised (HTTPException status detail) ->
      status = 400 /\ s' = s /\
      exists e, detail = "Webhook signature verification failed: " ++ exn_str e).
Proof.
  cbv zeta.
  destruct (webhook_cases request s) as [(e & H)|[H|(r & Hr & H)]];
    rewrite H; simpl.
  - split; [reflexivity|]. split; [reflexivity|]. split; [now left|].
    split; [discriminate|].
    intros status detail E. injection E as <- <-. eauto.
  - split; [reflexivity|]. split; [reflexivity|]. split; [now left|].
    split; [|discriminate].
    intros j E. now injection E.
  - split; [reflexivity|]. split; [reflexivity|]. split; [right; eauto|].
    split; [|discriminate].
    intros j E. now injection E.
Qed.

(** A body that passes the signature check but does not decode is
    answered like a bad signature: the 400 of line 163 with the decoder's
    message, and nothing is written. *)
Theorem webhook_undecodable_body
        (request : Request.t) (s : state) (u : unit) (e : exn) :
  verify_header (Request.body request)
                (Request.headers request "stripe-signature")
                (Startup.STRIPE_WEBHOOK_SECRET cfg) = Returned u ->
  json_loads (Request.body request) = Raised e ->
  webhook request s =
  (Raised (HTTPException 400
     ("Webhook signature verification failed: " ++ exn_str e)), s).
Proof.
  intros Hv Hj. apply webhook_rejected. unfold construct_event.
  now rewrite Hv, Hj.
Qed.

(** From payment to entitlement: after the webhook has handled a
    qualifying event, a full-report request for the selected package
    under any spelling of the buyer's e-mail that differs only in case
    passes the purchase check, at once and until 30 days have passed. *)
Theorem paid_then_entitled
        (request : Request.t) (s : state) (identity code : string)
        (req : FullReportReq.t) (t : Z) :
  qualified request identity code ->
  PyStr.lower (FullReportReq.email req) = PyStr.lower identity ->
  FullReportReq.package req = code ->
  clock s <= t <= clock s + 30 * 86400 ->
  let s2 := advance_clock t (snd (webhook request s)) in
  report req s2 = fetch cfg gather req s2.
Proof.
  intros (event & Hev & Hty & Hid & Hne & Hpk) Hcase Hp Ht. cbv zeta.
  apply full_report_allowed.
  rewrite has_recent_purchase_run. f_equal. f_equal.
  rewrite (webhook_completed _ _ _ _ _ _ _ Hev Hty), Hid, Hpk. simpl.
  destruct (session_package_configured _ _ _ Hpk) as (Hcode & _).
  apply nonempty_true_iff in Hne. rewrite Hne, Hcode. simpl.
  rewrite existsb_app. apply orb_true_iff. right. simpl.
  apply orb_true_iff. left. apply row_matches_true. simpl.
  repeat split; [now rewrite Hcase | now rewrite Hp | lia].
Qed.

(** [full_report] only reads the table: whatever it answers, the rows
    and the clock are as before, and the HTTP client has been handed
    nothing or exactly the two RentCast calls, once each. *)
Theorem full_report_reads_only (req : FullReportReq.t) (s : state) :
  let s' := snd (report req s) in
  purchases s' = purchases s /\
  clock s' = clock s /\
  (client_gets s' = client_gets s \/
   client_gets s' = (client_gets s ++ gets_of req)%list).
Proof.
  cbv zeta.
  destruct (full_report_cases cfg gather req s) as [(_ & H)|(_ & H)]; rewrite H.
  - rewrite fetch_run. simpl. auto.
  - simpl. auto.
Qed.

(** As it runs with httpx, [full_report] returns a report for no
    request: it raises the 402 of line 197 when the purchase check fails,
    and the [AttributeError] of line 208 when it passes. *)
Theorem full_report_never_returns (req : FullReportReq.t) (s : state) :
  (full_report cfg AsyncClient_gather req s
   = (Raised (HTTPException 402 "Purchase not found yet"), s)
   \/
   full_report cfg AsyncClient_gather req s
   = (Raised attribute_error, with_gets s (gets_of req)))
  /\
  forall j, fst (full_report cfg AsyncClient_gather req s) <> Returned j.
Proof.
  destruct (full_report_cases cfg AsyncClient_gather req s) as [(_ & A)|(_ & D)].
  - rewrite A, fetch_run. simpl. split; [right; reflexivity | discriminate].
  - rewrite D. simpl. split; [left; reflexivity | discriminate].
Qed.

(** An exception of the gather itself, or of decoding a body, reaches
    the caller as it is: it is not turned into one of the two "RentCast
    ... failed" errors. *)
Theorem full_report_upstream_exception
        (req : FullReportReq.t) (s : state) (e : exn) :
  fst (has_recent_purchase (FullReportReq.email req)
                           (FullReportReq.package req) 30 s) = Returned true ->
  (gather (est_call cfg req) (comps_call cfg req) = Raised e \/
   exists est_res comps_res,
     gather (est_call cfg req) (comps_call cfg req) = Returned (est_res, comps_res) /\
     Response.status_code est_res < 400 /\
     Response.status_code comps_res < 400 /\
     Response.json est_res = Raised e) ->
  fst (report req s) = Raised e.
Proof.
  intros Hp H.
  destruct (full_report_cases cfg gather req s) as [(_ & Hr)|(Hd & _)].
  2:{ rewrite Hd in Hp. discriminate Hp. }
  rewrite Hr, fetch_run. simpl.
  destruct H as [Hg|(er & cr & Hg & He & Hc & Je)]; rewrite Hg; [reflexivity|].
  rewrite !Z.geb_leb.
  destruct (Z.leb_spec 400 (Response.status_code er)); [lia|].
  destruct (Z.leb_spec 400 (Response.status_code cr)); [lia|].
  now rewrite Je.
Qed.

(** One action keeps what [has_recent_purchase] relies on, moves the
    clock forward only, and adds at most one row, and only if it is a
    webhook delivery. *)
Lemma step_invariant s a :
  lowered (purchases s) -> not_in_future s ->
  let s' := step cfg verify_header json_loads list_line_items gather s a in
  lowered (purchases s') /\ not_in_future s' /\ clock s <= clock s' /\
  exists added,
    purchases s' = (purchases s ++ added)%list /\
    (List.length added
     <= deliveries [a])%nat.
Proof.
  intros Hl Hf. cbv zeta. destruct a as [request|req|seconds]; unfold step.
  - split; [exact (webhook_keeps_lowered cfg verify_header json_loads
                     list_line_items request s Hl)|].
    split; [exact (webhook_keeps_not_in_future cfg verify_header json_loads
                     list_line_items request s Hf)|].
    destruct (webhook_cases request s) as [(e & H)|[H|(r & Hr & H)]];
      rewrite H; simpl.
    + split; [lia|]. exists []. split; [now rewrite app_nil_r | unfold deliveries; simpl; lia].
    + split; [lia|]. exists []. split; [now rewrite app_nil_r | unfold deliveries; simpl; lia].
    + split; [lia|]. exists [r]. split; [reflexivity | unfold deliveries; simpl; lia].
  - destruct (full_report_cases cfg gather req s) as [(_ & H)|(_ & H)];
      rewrite H; [rewrite fetch_run|]; simpl.
    + repeat split; trivial; [lia|]. exists []. split; [now rewrite app_nil_r | unfold deliveries; simpl; lia].
    + repeat split; trivial; [lia|]. exists []. split; [now rewrite app_nil_r | unfold deliveries; simpl; lia].
  - simpl. split; [exact Hl|]. split.
    + unfold not_in_future in *. simpl.
      eapply Forall_impl; [|exact Hf]. simpl. intros r Hr. lia.
    + split; [lia|]. exists []. split; [now rewrite app_nil_r | unfold deliveries; simpl; lia].
Qed.

(** Over any sequence of webhook deliveries, full-report requests and
    passing time, the table only grows at its end, by at most one row per
    delivery; stored e-mails stay in lower case; no row is stamped after
    the clock; and the clock does not go back. *)
Theorem run_keeps_table (actions : list action) (s : state) :
  lowered (purchases s) -> not_in_future s ->
  lowered (purchases (after actions s)) /\
  not_in_future (after actions s) /\
  clock s <= clock (after actions s) /\
  exists added,
    purchases (after actions s) = (purchases s ++ added)%list /\
    (List.length added <= deliveries actions)%nat.
Proof.
  revert s. induction actions as [|a rest IH]; intros s Hl Hf.
  - simpl. repeat split; trivial; [lia|]. exists []. split; [now rewrite app_nil_r | unfold deliveries; simpl; lia].
  - destruct (step_invariant s a Hl Hf) as (Hl1 & Hf1 & Hc1 & add1 & Ha1 & Hn1).
    destruct (IH _ Hl1 Hf1) as (Hl2 & Hf2 & Hc2 & add2 & Ha2 & Hn2).
    unfold run in *. simpl fold_left.
    repeat split; trivial; [lia|].
    exists (add1 ++ add2)%list. split.
    + rewrite Ha2, Ha1. now rewrite app_assoc.
    + rewrite List.length_app. unfold deliveries in *. simpl in *.
      destruct a; simpl in *; lia.
Qed.

End HandlerProperties.

Lemma webhook_undecodable_body_witness :
  Demo.webhook (Demo.signed "not json") Demo.s_paid =
  (Raised (HTTPException 400
     "Webhook signature verification failed: Expecting value: line 1 column 1 (char 0)"),
   Demo.s_paid).
Proof.
  apply (webhook_undecodable_body Demo.cfg Demo.verify_header Demo.json_loads
           Demo.list_line_items (Demo.signed "not json") Demo.s_paid tt
           (Exception "Expecting value: line 1 column 1 (char 0)"));
    reflexivity.
Defined.

Lemma paid_then_entitled_witness :
  full_report Demo.cfg AsyncClient_gather Demo.req
    (advance_clock (1700000000 + 29 * 86400)
       (snd (Demo.webhook (Demo.signed "snapshot-paid") Demo.s0)))
  = fetch Demo.cfg AsyncClient_gather Demo.req
      (advance_clock (1700000000 + 29 * 86400)
         (snd (Demo.webhook (Demo.signed "snapshot-paid") Demo.s0))).
Proof.
  apply (paid_then_entitled Demo.cfg Demo.verify_header Demo.json_loads
           Demo.list_line_items AsyncClient_gather
           (Demo.signed "snapshot-paid") Demo.s0 "user@example.com" "snapshot"
           Demo.req (1700000000 + 29 * 86400)).
  - exists (Stripe.mkEvent "checkout.session.completed"
              (Stripe.mkSession "cs_1" (Demo.buyer "user@example.com") (Some 2900))).
    repeat split; try reflexivity. discriminate.
  - reflexivity.
  - reflexivity.
  - simpl. lia.
Defined.

Lemma full_report_upstream_exception_witness :
  fst (full_report Demo.cfg DemoUpstream.gather_timeout Demo.req Demo.s_paid)
  = Raised (Exception "ReadTimeout").
Proof.
  apply (full_report_upstream_exception Demo.cfg DemoUpstream.gather_timeout
           Demo.req Demo.s_paid (Exception "ReadTimeout")).
  - reflexivity.
  - left. reflexivity.
Defined.

Lemma run_keeps_table_witness :
  lowered (purchases
             (run Demo.cfg Demo.verify_header Demo.json_loads
                  Demo.list_line_items AsyncClient_gather
                  DemoUpstream.one_day Demo.s0)) /\
  not_in_future
    (run Demo.cfg Demo.verify_header Demo.json_loads
         Demo.list_line_items AsyncClient_gather DemoUpstream.one_day Demo.s0) /\
  clock Demo.s0 <=
  clock (run Demo.cfg Demo.verify_header Demo.json_loads
             Demo.list_line_items AsyncClient_gather DemoUpstream.one_day Demo.s0) /\
  exists added,
    purchases
      (run Demo.cfg Demo.verify_header Demo.json_loads
           Demo.list_line_items AsyncClient_gather DemoUpstream.one_day Demo.s0)
    = (purchases Demo.s0 ++ added)%list /\
    (List.length added <= deliveries DemoUpstream.one_day)%nat.
Proof.
  apply (run_keeps_table Demo.cfg Demo.verify_header Demo.json_loads
           Demo.list_line_items AsyncClient_gather DemoUpstream.one_day Demo.s0).
  - constructor.
  - constructor.
Defined.

Example one_day_table :
  purchases
    (run Demo.cfg Demo.verify_header Demo.json_loads
         Demo.list_line_items AsyncClient_gather DemoUpstream.one_day Demo.s0)
  = [Ledger.mkPurchase "user@example.com" "snapshot" 1700000000].
Proof. reflexivity. Qed.

(* ================================================================== *)
(** ** The geocoding endpoint *)

Lemma comp_Some comps kind c :
  comp comps kind = Some c -> In c comps /\ In kind (Google.types c).
Proof.
  unfold comp. intro H. apply find_some in H. destruct H as (Hin & Hk).
  split; [exact Hin|].
  apply existsb_exists in Hk. destruct Hk as (k & Hk & E).
  apply String.eqb_eq in E. now subst k.
Qed.

Lemma comp_None comps kind :
  comp comps kind = None <->
  forall c, In c comps -> ~ In kind (Google.types c).
Proof.
  unfold comp. split.
  - intros H c Hin Hk. pose proof (find_none _ _ H c Hin) as F. simpl in F.
    assert (T : existsb (String.eqb kind) (Google.types c) = true).
    { apply existsb_exists. exists kind. split; [exact Hk|apply String.eqb_refl]. }
    rewrite T in F. discriminate F.
  - intro H. destruct (find _ comps) as [c|] eqn:F; [|reflexivity].
    destruct (comp_Some comps kind c F) as (Hin & Hk). now elim (H c Hin).
Qed.

(** What a returned answer was computed from. *)
Lemma geocode_answer_Returned data g :
  geocode_answer data = Returned g ->
  exists res rest,
    Google.status data = Some "OK" /\
    Google.results data = Some (res :: rest) /\
    let comps := Google.address_components res in
    let state :=
      match comp comps "administrative_area_level_1" with
      | Some c => Google.short_name c
      | None => ""
      end in
    g = Geocoded.mk
          (Google.formatted_address res)
          (Google.lat (Google.location res)) (Google.lng (Google.location res))
          (option_map Google.long_name
             (or_comp (comp comps "locality")
                (or_comp (comp comps "postal_town")
                   (comp comps "administrative_area_level_3"))))
          (option_map Google.long_name (comp comps "administrative_area_level_2"))
          (if PyStr.nonempty state then state else "VA").
Proof.
  unfold geocode_answer.
  destruct (Google.status data) as [st|]; [|discriminate].
  destruct (String.eqb_spec st "OK") as [->|]; [|discriminate].
  destruct (Google.results data) as [[|res rest]|]; try discriminate.
  simpl. intro H. injection H as <-. exists res, rest. auto.
Qed.

(** [geocode] answers 400 "No results" exactly when the decoded
    response has a status other than "OK" or no result; otherwise it
    returns an answer built from the first result alone, with its
    formatted address and coordinates unchanged. The index error of
    [data["results"][0]] cannot occur. *)
Theorem geocode_answer_cases (data : Google.Geocoding) :
  ((Google.status data <> Some "OK" \/
    Google.results data = None \/ Google.results data = Some []) /\
   geocode_answer data = Raised (HTTPException 400 "No results"))
  \/
  (Google.status data = Some "OK" /\
   exists res rest g,
     Google.results data = Some (res :: rest) /\
     geocode_answer data = Returned g /\
     geocode_answer (Google.mkGeocoding (Some "OK") (Some [res])) = Returned g /\
     Geocoded.formatted_address g = Google.formatted_address res /\
     Geocoded.lat g = Google.lat (Google.location res) /\
     Geocoded.lng g = Google.lng (Google.location res)).
Proof.
  unfold geocode_answer. destruct data as [st rs]. simpl.
  destruct st as [st|].
  2:{ left. split; [left; discriminate | reflexivity]. }
  destruct (String.eqb_spec st "OK") as [->|Hst].
  2:{ left. split; [left; congruence | reflexivity]. }
  destruct rs as [[|res rest]|]; simpl.
  - left. auto.
  - right. split; [reflexivity|]. do 3 eexists. repeat split; reflexivity.
  - left. auto.
Qed.

(** The state of an answer is never empty: it is the short name of the
    first component typed "administrative_area_level_1" when there is
    one and its short name is not empty, and "VA" in every other case. *)
Theorem geocode_state_fallback (data : Google.Geocoding) (g : Geocoded.t) :
  geocode_answer data = Returned g ->
  Geocoded.state g <> "" /\
  exists res rest,
    Google.results data = Some (res :: rest) /\
    match comp (Google.address_components res) "administrative_area_level_1" with
    | Some c =>
        In c (Google.address_components res) /\
        In "administrative_area_level_1" (Google.types c) /\
        ((Google.short_name c <> "" /\ Geocoded.state g = Google.short_name c)
         \/ (Google.short_name c = "" /\ Geocoded.state g = "VA"))
    | None =>
        (forall c, In c (Google.address_components res) ->
                   ~ In "administrative_area_level_1" (Google.types c)) /\
        Geocoded.state g = "VA"
    end.
Proof.
  intro H. destruct (geocode_answer_Returned _ _ H) as (res & rest & _ & Hr & E).
  cbv zeta in E. subst g. simpl.
  destruct (comp (Google.address_components res) "administrative_area_level_1")
    as [c|] eqn:C.
  - destruct (comp_Some _ _ _ C) as (Hin & Hk).
    destruct (Google.short_name c) as [|a sn] eqn:S; simpl.
    + split; [discriminate|]. exists res, rest. split; [exact Hr|].
      rewrite C. repeat split; trivial. right. auto.
    + split; [discriminate|]. exists res, rest. split; [exact Hr|].
      rewrite C. repeat split; trivial. left. rewrite S. split; [discriminate|auto].
  - simpl. split; [discriminate|]. exists res, rest. split; [exact Hr|].
    rewrite C. split; [|reflexivity]. now apply comp_None.
Qed.

Lemma geocode_state_fallback_witness :
  Geocoded.state
    (Geocoded.mk "1 Main St, Richmond, VA 23219, USA"
       (S754_finite false 75 (-1)) (S754_finite true 155 (-1))
       (Some "Richmond") (Some "Richmond City") "VA") <> "".
Proof.
  apply (geocode_state_fallback
           (Google.mkGeocoding (Some "OK") (Some [DemoMaps.richmond; DemoMaps.london]))
           (Geocoded.mk "1 Main St, Richmond, VA 23219, USA"
              (S754_finite false 75 (-1)) (S754_finite true 155 (-1))
              (Some "Richmond") (Some "Richmond City") "VA")).
  reflexivity.
Defined.

(** The city of an answer is the long name of a component typed
    "locality"; only when there is none, of one typed "postal_town";
    only when there is none either, of one typed
    "administrative_area_level_3"; and it is absent exactly when no
    component has any of the three types. *)
Theorem geocode_city_precedence (data : Google.Geocoding) (g : Geocoded.t) :
  geocode_answer data = Returned g ->
  exists res rest,
    Google.results data = Some (res :: rest) /\
    let comps := Google.address_components res in
    (Geocoded.city g = None <->
     no_component comps "locality" /\ no_component comps "postal_town" /\
     no_component comps "administrative_area_level_3")
    /\
    (forall name,
        Geocoded.city g = Some name ->
        exists c,
          In c comps /\ Google.long_name c = name /\
          (In "locality" (Google.types c)
           \/ (no_component comps "locality" /\
               In "postal_town" (Google.types c))
           \/ (no_component comps "locality" /\
               no_component comps "postal_town" /\
               In "administrative_area_level_3" (Google.types c)))).
Proof.
  intro H. destruct (geocode_answer_Returned _ _ H) as (res & rest & _ & Hr & E).
  cbv zeta in E. subst g. exists res, rest. split; [exact Hr|]. cbv zeta. simpl.
  unfold no_component.
  destruct (comp (Google.address_components res) "locality") as [c1|] eqn:C1.
  { destruct (comp_Some _ _ _ C1) as (Hin & Hk). simpl. split.
    - split; [discriminate|]. intros (N & _). now elim (N c1 Hin).
    - intros name E. injection E as <-. exists c1. auto. }
  pose proof (proj1 (comp_None _ _) C1) as N1. clear C1.
  destruct (comp (Google.address_components res) "postal_town") as [c2|] eqn:C2.
  { destruct (comp_Some _ _ _ C2) as (Hin & Hk). simpl. split.
    - split; [discriminate|]. intros (_ & N & _). now elim (N c2 Hin).
    - intros name E. injection E as <-. exists c2.
      split; [exact Hin|]. split; [reflexivity|]. right. left. auto. }
  pose proof (proj1 (comp_None _ _) C2) as N2. clear C2.
  destruct (comp (Google.address_components res) "administrative_area_level_3")
    as [c3|] eqn:C3.
  { destruct (comp_Some _ _ _ C3) as (Hin & Hk). simpl. split.
    - split; [discriminate|]. intros (_ & _ & N). now elim (N c3 Hin).
    - intros name E. injection E as <-. exists c3.
      split; [exact Hin|]. split; [reflexivity|]. right. right. auto. }
  pose proof (proj1 (comp_None _ _) C3) as N3. clear C3. simpl. split.
  - split; auto.
  - discriminate.
Qed.

Lemma geocode_city_precedence_witness :
  exists res rest,
    Some [DemoMaps.london] = Some (res :: rest) /\
    let comps := Google.address_components res in
    (Geocoded.city
       (Geocoded.mk "10 Downing St, London SW1A 2AA, UK"
          (S754_finite false 103 (-1)) (S754_zero true)
          (Some "London") (Some "Greater London") "England") = None <->
     no_component comps "locality" /\ no_component comps "postal_town" /\
     no_component comps "administrative_area_level_3")
    /\
    (forall name,
        Geocoded.city
          (Geocoded.mk "10 Downing St, London SW1A 2AA, UK"
             (S754_finite false 103 (-1)) (S754_zero true)
             (Some "London") (Some "Greater London") "England") = Some name ->
        exists c,
          In c comps /\ Google.long_name c = name /\
          (In "locality" (Google.types c)
           \/ (no_component comps "locality" /\
               In "postal_town" (Google.types c))
           \/ (no_component comps "locality" /\
               no_component comps "postal_town" /\
               In "administrative_area_level_3" (Google.types c)))).
Proof.
  apply (geocode_city_precedence
           (Google.mkGeocoding (Some "OK") (Some [DemoMaps.london]))
           (Geocoded.mk "10 Downing St, London SW1A 2AA, UK"
              (S754_finite false 103 (-1)) (S754_zero true)
              (Some "London") (Some "Greater London") "England")).
  reflexivity.
Defined.

Section GeocodeProperties.

Variable cfg : Startup.config.
Variable maps_get : get_call -> outcome Google.Response.

Lemma geocode_run address s :
  geocode cfg maps_get address s =
  (match maps_get (geocode_call cfg address) with
   | Raised e => Raised e
   | Returned r =>
       match Google.raise_for_status r with
       | Raised e => Raised e
       | Returned _ =>
           match Google.json r with
           | Raised e => Raised e
           | Returned data => geocode_answer data
           end
       end
   end,
   with_gets s [geocode_call cfg address]).
Proof.
  unfold geocode, bind, client_get, call, with_gets.
  destruct (maps_get (geocode_call cfg address)) as [r|e]; [|reflexivity].
  destruct (Google.raise_for_status r); [|reflexivity].
  now destruct (Google.json r).
Qed.

(** When the GET raises, or the response's status check raises, [geocode]
    raises that same exception: the body is not looked at and no answer is
    made up. Exactly one GET has been handed to the client, and the
    purchase table and the clock are untouched. *)
Theorem geocode_upstream_failure (address : string) (s : state) (e : exn) :
  (maps_get (geocode_call cfg address) = Raised e \/
   exists r, maps_get (geocode_call cfg address) = Returned r /\
             Google.raise_for_status r = Raised e) ->
  geocode cfg maps_get address s =
  (Raised e, with_gets s [geocode_call cfg address]).
Proof.
  intro H. rewrite geocode_run.
  destruct H as [H|(r & H & Hr)]; rewrite H; [reflexivity|].
  now rewrite Hr.
Qed.

End GeocodeProperties.

Lemma geocode_upstream_failure_witness :
  geocode Demo.cfg DemoMaps.maps_get_denied "1 Main St" Demo.s_paid =
  (Raised (Exception "403 Forbidden"),
   with_gets Demo.s_paid [geocode_call Demo.cfg "1 Main St"]).
Proof.
  apply (geocode_upstream_failure Demo.cfg DemoMaps.maps_get_denied
           "1 Main St" Demo.s_paid (Exception "403 Forbidden")).
  right. eexists. split; reflexivity.
Defined.

Example geocode_richmond :
  fst (geocode Demo.cfg DemoMaps.maps_get "1 Main St, Richmond" Demo.s0) =
  Returned (Geocoded.mk "1 Main St, Richmond, VA 23219, USA"
              (S754_finite false 75 (-1)) (S754_finite true 155 (-1))
              (Some "Richmond") (Some "Richmond City") "VA").
Proof. reflexivity. Qed.
